(** * MetroDevServer: the dev-server adapter of expo-cli

    A shallow embedding of [packages/dev-server/src/MetroDevServer.ts].

    The module is orchestration around external collaborators (Metro, the
    Hermes compiler, connect).  The collaborators are gathered in one record,
    [Environment]; every call the TypeScript code makes to one of them is
    recorded as an [Event], so that what the code does is read off the trace
    of a run.  Asynchronous functions live in the monad [Async]: a writer for
    the trace, a state for the module-level counter [nextBuildID] and an error
    result for rejected promises. *)

From Stdlib Require Import List String Bool Arith Lia.
From Stdlib Require Import Strings.Byte.
Import ListNotations.
Local Open Scope string_scope.
Local Open Scope list_scope.

(** ** Data model *)

(** [platform: 'android' | 'ios' | 'web'] *)
Inductive Platform := android | ios | web.

(** [export type BundleOptions]: optional properties are [option]s, [None]
    standing for [undefined]. *)
Record BundleOptions := {
  entryPoint : string;
  platform : Platform;
  dev : option bool;
  minify : option bool;
  sourceMapUrl : option string;
}.

(** [Metro.AssetData & { fileHashes: string[] }] *)
Record BundleAssetWithFileHashes := {
  assetName : string;
  assetHash : string;
  fileHashes : list string;
}.

(** [export type BundleOutput] *)
Record BundleOutput := {
  code : string;
  map : string;
  hermesBytecodeBundle : option (list byte);
  hermesSourcemap : option string;
  assets : list BundleAssetWithFileHashes;
}.

(** [MetroDevServerOptions]: the loader options that matter here and the
    quiet flag.  The logger is not a value of the model: its calls are
    events. *)
Record MetroDevServerOptions := {
  quiet : option bool;
  resetCache : option bool;
  target : option string;
}.

(** The part of [ExpoConfig] that selects the JavaScript engine. *)
Record ExpoConfig := {
  slug : string;
  jsEngine : option string;
  androidJsEngine : option string;
  iosJsEngine : option string;
}.

(** What [getConfigFilePaths] returns. *)
Record ConfigFilePaths := {
  dynamicConfigPath : option string;
  staticConfigPath : option string;
}.

(** The loaded Metro configuration, reduced to the fields this file reads. *)
Record MetroConfig := {
  serverPort : nat;
  watchFolders : list string;
  createModuleIdFactory : string -> nat;
}.

Module Metro.
(** [Metro.BundleOptions].  [onProgress] is a closure over the reporter;
    it is the function [onProgress] below, not a field. *)
Record BundleOptions := {
  bundleType : string;
  platform : Platform;
  entryFile : string;
  dev : bool;
  minify : bool;
  inlineSourceMap : bool;
  sourceMapUrl : option string;
  createModuleIdFactory : string -> nat;
  excludeSource : bool;
  runModule : bool;
  shallow : bool;
}.
End Metro.

(** What [buildHermesBundleAsync] resolves to. *)
Record HermesBundleOutput := {
  hbc : list byte;
  sourcemap : string;
}.

(** Rejections and exceptions. *)
Inductive Error :=
| ExternalError (message : string)
| InconsistentEngine (configFile : string) (p : Platform)
| TypeError (message : string).

Inductive Result (A : Type) :=
| Ok (a : A)
| Throw (e : Error).
Arguments Ok {A} a.
Arguments Throw {A} e.

(** JavaScript truthiness of an optional boolean, and [??]. *)
Definition truthy (b : option bool) : bool :=
  match b with Some true => true | _ => false end.

Definition nullish {A} (a : option A) (default : A) : A :=
  match a with Some v => v | None => default end.

Notation "a ?? b" := (nullish a b) (at level 45, left associativity).

(** ** Progress reports and the trace *)

(** [`bundle_${nextBuildID++}`] *)
Inductive BuildID := bundle_ (n : nat).

Record BundleDetails := {
  detailsBundleType : string;
  detailsPlatform : Platform;
  detailsEntryFile : string;
  detailsDev : bool;
  detailsMinify : bool;
}.

(** The [type] discriminator of a report, with its payload. *)
Inductive ReportType :=
| bundle_build_started (bundleDetails : BundleDetails)
| bundle_transform_progressed (transformedFileCount totalFileCount : nat)
| bundle_build_done.

(** One entry per call to a collaborator.  Calls that return a promise can
    reject, and so can the two imports; the synchronous calls (the reporter,
    the logger, [metroServer.end]) are taken to return. *)
Inductive Event :=
| ReporterUpdate (buildID : BuildID) (type : ReportType)
| MetroBuild (o : Metro.BundleOptions)
| MetroGetAssets (o : Metro.BundleOptions)
| MetroEnd
| CheckEngine (projectRoot configFilePath : string) (p : Platform)
              (isHermesManaged : bool)
| LoggerInfo (tag message : string)
| HermesBuildBegin (projectRoot code map : string) (optimize : option bool)
| HermesBuildSettled (fulfilled : bool).

(** What one call to [metroServer.build] does: the progress callbacks it
    makes, in order, and how its promise settles. *)
Record BuildRun := {
  progress : list (nat * nat);
  settles : Result (string * string);
}.

(** ** The external collaborators *)

Record Environment := {
  (** [importMetroFromProject(projectRoot)] *)
  importMetroFromProject : string -> Result unit;
  (** [importMetroServerFromProject(projectRoot)]: the [Server] class, of
      which only [DEFAULT_BUNDLE_OPTIONS] is used. *)
  importMetroServerFromProject : string -> Result Metro.BundleOptions;
  (** [ExpoMetroConfig.loadAsync(projectRoot, { reporter, ...options })] *)
  loadAsync : string -> MetroDevServerOptions -> Result MetroConfig;
  (** [metro.runMetro(config, { watch: false })] *)
  runMetro : MetroConfig -> Result unit;
  (** [metroServer.build(bundleOptions)] *)
  build : Metro.BundleOptions -> BuildRun;
  (** [metroServer.getAssets(bundleOptions)] *)
  getAssets : Metro.BundleOptions -> Result (list BundleAssetWithFileHashes);
  (** [isEnableHermesManaged(expoConfig, platform)] *)
  isEnableHermesManaged : ExpoConfig -> Platform -> bool;
  (** [getConfigFilePaths(projectRoot)] *)
  getConfigFilePaths : string -> ConfigFilePaths;
  (** The bytecode setting of a platform's native project, when there is
      one. *)
  platformBytecodeSetting : string -> Platform -> option bool;
  (** [buildHermesBundleAsync(projectRoot, code, map, optimize)] *)
  buildHermesBundleAsync :
    string -> string -> string -> option bool -> Result HermesBundleOutput;
  (** [chalk.bold(text)]: the text, wrapped in the escape sequences for
      bold when the terminal takes colours. *)
  chalk_bold : string -> string;
  (** The order in which the event loop resumes the pending builds: at its
      [t]-th turn it resumes the pending build number [schedule t] (modulo
      the number of pending builds). *)
  schedule : nat -> nat;
}.

(** ** The monad of asynchronous functions *)

(** Module-level state: [let nextBuildID = 0]. *)
Record Globals := { nextBuildID : nat }.

Record Run (A : Type) := {
  emitted : list Event;
  globals : Globals;
  outcome : Result A;
}.
Arguments emitted {A} _.
Arguments globals {A} _.
Arguments outcome {A} _.

Definition Async (A : Type) : Type := Globals -> Run A.

Definition ret {A} (a : A) : Async A :=
  fun g => {| emitted := []; globals := g; outcome := Ok a |}.

Definition throw {A} (e : Error) : Async A :=
  fun g => {| emitted := []; globals := g; outcome := Throw e |}.

Definition bind {A B} (m : Async A) (k : A -> Async B) : Async B :=
  fun g =>
    let r := m g in
    match outcome r with
    | Throw e => {| emitted := emitted r; globals := globals r; outcome := Throw e |}
    | Ok a =>
        let r' := k a (globals r) in
        {| emitted := emitted r ++ emitted r';
           globals := globals r';
           outcome := outcome r' |}
    end.

Notation "x <- m ;; k" := (bind m (fun x => k))
  (at level 61, m at next level, right associativity).
Notation "m ;;; k" := (bind m (fun _ => k))
  (at level 61, right associativity).

Definition emit (e : Event) : Async unit :=
  fun g => {| emitted := [e]; globals := g; outcome := Ok tt |}.

(** Awaiting a promise whose settlement is known. *)
Definition await {A} (r : Result A) : Async A :=
  fun g => {| emitted := []; globals := g; outcome := r |}.

(** A computation that touches no global: its events and its settlement. *)
Definition traced {A} (p : list Event * Result A) : Async A :=
  fun g => {| emitted := fst p; globals := g; outcome := snd p |}.

(** [nextBuildID++] *)
Definition postIncrementNextBuildID : Async nat :=
  fun g => {| emitted := [];
              globals := {| nextBuildID := S (nextBuildID g) |};
              outcome := Ok (nextBuildID g) |}.

(** [try { body } finally { cleanup }]: the cleanup runs however the body
    settles; the body's settlement stands unless the cleanup throws. *)
Definition tryFinally {A} (body : Async A) (cleanup : Async unit) : Async A :=
  fun g =>
    let r := body g in
    let c := cleanup (globals r) in
    {| emitted := emitted r ++ emitted c;
       globals := globals c;
       outcome := match outcome c with
                  | Throw e => Throw e
                  | Ok _ => outcome r
                  end |}.

(** ** bundleAsync *)

(** A promise returned by [buildAsync], by the [await] it is suspended at. *)
Inductive Task :=
| AwaitingBuild (o : Metro.BundleOptions) (callbacks : list (nat * nat))
| AwaitingAssets (o : Metro.BundleOptions) (code map : string)
| Fulfilled (out : BundleOutput).

Definition pending (t : Task) : bool :=
  match t with Fulfilled _ => false | _ => true end.

(** The number of times the event loop has to resume a promise before it is
    fulfilled. *)
Definition turns (t : Task) : nat :=
  match t with
  | AwaitingBuild _ callbacks => List.length callbacks + 2
  | AwaitingAssets _ _ _ => 1
  | Fulfilled _ => 0
  end.

Definition turnsLeft (ts : list Task) : nat :=
  list_sum (List.map turns ts).

Definition pendingCount (ts : list Task) : nat :=
  List.length (filter pending ts).

(** The values of the fulfilled promises, in the order of the promises. *)
Fixpoint fulfilledValues (ts : list Task) : list BundleOutput :=
  match ts with
  | [] => []
  | Fulfilled out :: ts' => out :: fulfilledValues ts'
  | _ :: ts' => fulfilledValues ts'
  end.

Definition mapResult {A B} (f : A -> B) (r : Result A) : Result B :=
  match r with Ok a => Ok (f a) | Throw e => Throw e end.

Definition isOk {A} (r : Result A) : bool :=
  match r with Ok _ => true | Throw _ => false end.

(** [a ?? b] where [b] may be [undefined] too. *)
Definition nullishOr {A} (a b : option A) : option A :=
  match a with Some _ => a | None => b end.

(** [{ ios: 'iOS', android: 'Android', web: 'Web' }[platform] || platform] *)
Definition platformName (p : Platform) : string :=
  match p with ios => "iOS" | android => "Android" | web => "Web" end.

Section BundleAsync.

Variable env : Environment.
Variable projectRoot : string.
Variable expoConfig : ExpoConfig.
Variable options : MetroDevServerOptions.

Section Closures.

(** What the closures of [bundleAsync] capture. *)
Variable DEFAULT_BUNDLE_OPTIONS : Metro.BundleOptions.
Variable config : MetroConfig.
Variable buildID : BuildID.

(** [const bundleOptions: Metro.BundleOptions = { ... }] *)
Definition bundleOptions (bundle : BundleOptions) : Metro.BundleOptions :=
  {| Metro.bundleType := "bundle";
     Metro.platform := platform bundle;
     Metro.entryFile := entryPoint bundle;
     Metro.dev := dev bundle ?? false;
     Metro.minify := minify bundle ?? negb (truthy (dev bundle));
     Metro.inlineSourceMap := false;
     Metro.sourceMapUrl := sourceMapUrl bundle;
     Metro.createModuleIdFactory := createModuleIdFactory config;
     Metro.excludeSource := Metro.excludeSource DEFAULT_BUNDLE_OPTIONS;
     Metro.runModule := Metro.runModule DEFAULT_BUNDLE_OPTIONS;
     Metro.shallow := Metro.shallow DEFAULT_BUNDLE_OPTIONS |}.

(** The [onProgress] callback of the bundle options: what it reports. *)
Definition onProgress (transformedFileCount totalFileCount : nat)
  : list Event :=
  if negb (truthy (quiet options)) then
    [ReporterUpdate buildID
       (bundle_transform_progressed transformedFileCount totalFileCount)]
  else [].

(** The [bundleDetails] of the [bundle_build_started] report. *)
Definition bundleDetailsOf (bundle : BundleOptions) : BundleDetails :=
  {| detailsBundleType := Metro.bundleType (bundleOptions bundle);
     detailsPlatform := platform bundle;
     detailsEntryFile := entryPoint bundle;
     detailsDev := dev bundle ?? false;
     detailsMinify := minify bundle ?? false |}.

(** [buildAsync(bundle)] up to its first [await]: the started report and
    the call of [metroServer.build], whose promise it then waits for. *)
Definition buildAsync (bundle : BundleOptions) : list Event * Task :=
  let o := bundleOptions bundle in
  ([ReporterUpdate buildID (bundle_build_started (bundleDetailsOf bundle));
    MetroBuild o],
   AwaitingBuild o (progress (build env o))).

(** One turn of the event loop on a promise of [buildAsync]: Metro makes
    its next progress callback, or the awaited promise settles and
    [buildAsync] runs on to its next [await] or to its [return]. *)
Definition resume (t : Task) : list Event * Result Task :=
  match t with
  | AwaitingBuild o ((transformed, total) :: callbacks) =>
      (onProgress transformed total, Ok (AwaitingBuild o callbacks))
  | AwaitingBuild o [] =>
      match settles (build env o) with
      | Throw e => ([], Throw e)
      | Ok (code, map) => ([MetroGetAssets o], Ok (AwaitingAssets o code map))
      end
  | AwaitingAssets o code map =>
      match getAssets env o with
      | Throw e => ([], Throw e)
      | Ok assets =>
          ([ReporterUpdate buildID bundle_build_done],
           Ok (Fulfilled {| code := code;
                            map := map;
                            hermesBytecodeBundle := None;
                            hermesSourcemap := None;
                            assets := assets |}))
      end
  | Fulfilled out => ([], Ok (Fulfilled out))
  end.

(** Resume the [k]-th pending promise of the list. *)
Fixpoint resumeNth (k : nat) (ts : list Task)
  : list Event * Result (list Task) :=
  match ts with
  | [] => ([], Ok [])
  | t :: ts' =>
      if pending t then
        match k with
        | 0 => let (evs, r) := resume t in
               (evs, mapResult (fun t' => t' :: ts') r)
        | S k' => let (evs, r) := resumeNth k' ts' in
                  (evs, mapResult (cons t) r)
        end
      else
        let (evs, r) := resumeNth k ts' in (evs, mapResult (cons t) r)
  end.

(** The event loop while [Promise.all] is awaited.  Each turn resumes
    the pending promise the schedule names.  The first rejection rejects
    [Promise.all], and [bundleAsync] goes on to its [finally] block: the
    trace of [bundleAsync] ends there, whatever the promises left behind
    still do.  [fuel] is the number of turns that are left, see
    [turnsLeft]; [eventLoop_fulfils] shows that no promise is pending
    when it is used up. *)
Fixpoint eventLoop (fuel turn : nat) (ts : list Task)
  : list Event * Result (list BundleOutput) :=
  match fuel with
  | 0 => ([], Ok (fulfilledValues ts))
  | S fuel' =>
      match pendingCount ts with
      | 0 => ([], Ok (fulfilledValues ts))
      | S _ as n =>
          let (evs, r) := resumeNth (schedule env turn mod n) ts in
          match r with
          | Throw e => (evs, Throw e)
          | Ok ts' =>
              let (evs', r') := eventLoop fuel' (S turn) ts' in
              (evs ++ evs', r')
          end
      end
  end.

(** [Promise.all(bundles.map(bundle => buildAsync(bundle)))]: [map] runs
    every [buildAsync] up to its first [await], in order; then the
    event loop takes over. *)
Definition Promise_all_buildAsync (bundles : list BundleOptions)
  : list Event * Result (list BundleOutput) :=
  let started := List.map buildAsync bundles in
  let ts := List.map snd started in
  let (evs, r) := eventLoop (turnsLeft ts) 0 ts in
  (List.concat (List.map fst started) ++ evs, r).

End Closures.

(** Modelled from the spec: [maybeThrowFromInconsistentEngineAsync] is
    defined in [./HermesBundler], which is not among the sources.  Per the
    spec it verifies engine consistency between the app's declared
    configuration ([isHermesManaged]) and the per-platform bytecode
    setting, and raises a fatal error on mismatch that names the config
    file that must be edited. *)
Definition maybeThrowFromInconsistentEngineAsync
    (projectRoot' configFilePath : string) (p : Platform)
    (isHermesManaged : bool) : Async unit :=
  emit (CheckEngine projectRoot' configFilePath p isHermesManaged) ;;;
  match platformBytecodeSetting env projectRoot' p with
  | Some setting =>
      if Bool.eqb setting isHermesManaged then ret tt
      else throw (InconsistentEngine configFilePath p)
  | None => ret tt
  end.

(** [await buildHermesBundleAsync(projectRoot, code, map, optimize)] *)
Definition awaitBuildHermesBundleAsync
    (code map : string) (optimize : option bool) : Async HermesBundleOutput :=
  emit (HermesBuildBegin projectRoot code map optimize) ;;;
  let r := buildHermesBundleAsync env projectRoot code map optimize in
  emit (HermesBuildSettled (isOk r)) ;;;
  await r.

(** [maybeAddHermesBundleAsync(bundle, bundleOutput)].  The source assigns
    the two Hermes properties on [bundleOutput] itself; every output object
    comes from its own [buildAsync] call and is held once, so the update
    is rendered as a new record. *)
Definition maybeAddHermesBundleAsync
    (bundle : BundleOptions) (bundleOutput : BundleOutput)
    : Async BundleOutput :=
  let platform := platform bundle in
  let isHermesManaged := isEnableHermesManaged env expoConfig platform in
  let paths := getConfigFilePaths env projectRoot in
  let configFilePath :=
    nullishOr (dynamicConfigPath paths) (staticConfigPath paths) ?? "app.json" in
  maybeThrowFromInconsistentEngineAsync
    projectRoot configFilePath platform isHermesManaged ;;;
  if isHermesManaged then
    let platformTag := chalk_bold env (platformName platform) in
    emit (LoggerInfo "expo"
            ("💿 " ++ platformTag ++ " Building Hermes bytecode for the bundle")%string) ;;;
    hermesBundleOutput <-
      awaitBuildHermesBundleAsync
        (code bundleOutput) (map bundleOutput) (minify bundle) ;;
    ret {| code := code bundleOutput;
           map := map bundleOutput;
           hermesBytecodeBundle := Some (hbc hermesBundleOutput);
           hermesSourcemap := Some (sourcemap hermesBundleOutput);
           assets := assets bundleOutput |}
  else ret bundleOutput.

(** [for (let i = 0; i < bundles.length; ++i) bundleOutputs.push(await
    maybeAddHermesBundleAsync(bundles[i], intermediateOutputs[i]))], with
    [rest] the requests from index [i] on.  Reading a property of an
    [intermediateOutputs[i]] that is [undefined] is a [TypeError]. *)
Fixpoint hermesLoop (rest : list BundleOptions) (i : nat)
    (intermediateOutputs bundleOutputs : list BundleOutput)
    : Async (list BundleOutput) :=
  match rest with
  | [] => ret bundleOutputs
  | bundle :: rest' =>
      match nth_error intermediateOutputs i with
      | None => throw (TypeError "Cannot read properties of undefined")
      | Some intermediate =>
          out <- maybeAddHermesBundleAsync bundle intermediate ;;
          hermesLoop rest' (S i) intermediateOutputs (bundleOutputs ++ [out])
      end
  end.

(** [metroServer.end()], a synchronous call. *)
Definition metroServer_end : Async unit := emit MetroEnd.

(** [export async function bundleAsync(projectRoot, expoConfig, options,
    bundles)] *)
Definition bundleAsync (bundles : list BundleOptions)
    : Async (list BundleOutput) :=
  _ <- await (importMetroFromProject env projectRoot) ;;
  Server_DEFAULT_BUNDLE_OPTIONS <-
    await (importMetroServerFromProject env projectRoot) ;;
  config <- await (loadAsync env projectRoot options) ;;
  n <- postIncrementNextBuildID ;;
  let buildID := bundle_ n in
  _ <- await (runMetro env config) ;;
  tryFinally
    (intermediateOutputs <-
       traced (Promise_all_buildAsync
                 Server_DEFAULT_BUNDLE_OPTIONS config buildID bundles) ;;
     hermesLoop bundles 0 intermediateOutputs [])
    metroServer_end.

End BundleAsync.

(** ** The middleware chain *)

(** The [connect] application behind [middleware]: a stack of handlers that
    a request runs through in order, each one answering it or handing it to
    the next.  [use] pushes a handler on the stack and returns the
    application itself. *)
Module Connect.

Record Request := { method : string; url : string }.
Record Response := { statusCode : nat; body : string }.

(** A handler answers ([Some]) or calls [next()] ([None]). *)
Definition Handler : Type := Request -> option Response.

Record Server := { stack : list Handler }.

Definition use (app : Server) (h : Handler) : Server :=
  {| stack := stack app ++ [h] |}.

Fixpoint run (handlers : list Handler) (req : Request) : option Response :=
  match handlers with
  | [] => None
  | h :: rest =>
      match h req with
      | Some res => Some res
      | None => run rest req
      end
  end.

(** The application used as a request handler. *)
Definition handle (app : Server) : Handler := run (stack app).

End Connect.

(** ** runMetroDevServerAsync: the merged enhancer *)

(** The [Metro.Server] instance handed to an enhancer. *)
Record MetroServer := { serverProjectRoot : string }.

(** [metroConfig.server.enhanceMiddleware] as loaded, when there is one. *)
Definition EnhanceMiddleware : Type :=
  Connect.Handler -> MetroServer -> Connect.Handler.

(** The function [runMetroDevServerAsync] assigns to
    [metroConfig.server.enhanceMiddleware], a closure over
    [customEnhanceMiddleware] and [middleware].  [middleware.use] pushes on
    the stack of [middleware] and returns [middleware]: the result is that
    one object, after the push. *)
Definition enhanceMiddleware
    (customEnhanceMiddleware : option EnhanceMiddleware)
    (middleware : Connect.Server)
    (metroMiddleware : Connect.Handler) (server : MetroServer)
    : Connect.Server :=
  let metroMiddleware :=
    match customEnhanceMiddleware with
    | Some custom => custom metroMiddleware server
    | None => metroMiddleware
    end in
  Connect.use middleware metroMiddleware.

(** ** attachInspectorProxy *)

(** The inspector proxy object: the names of its properties, for the [in]
    operator, and its [processRequest] method. *)
Record InspectorProxy := {
  properties : list string;
  processRequest : Connect.Handler;
}.

(** [name in object] *)
Definition hasProperty (name : string) (object : InspectorProxy) : bool :=
  existsb (String.eqb name) (properties object).

Record HttpServer := { listeningPort : nat }.

(** The calls that bind the proxy to the server's WebSocket upgrades. *)
Inductive Binding :=
| addWebSocketListener (server : HttpServer)
| createWebSocketListeners (server : HttpServer).

(** What a call of [attachInspectorProxy] leaves behind: the binding calls
    it made, the middleware after the call, and the returned
    [{ inspectorProxy }]. *)
Record Attached := {
  bindings : list Binding;
  middlewareAfter : Connect.Server;
  inspectorProxy : InspectorProxy;
}.

Section AttachInspectorProxy.

(** [importInspectorProxyServerFromProject(projectRoot)]: the
    [InspectorProxy] class, as its constructor. *)
Variable importInspectorProxyServerFromProject :
  string -> Result (string -> InspectorProxy).

(** [export function attachInspectorProxy(projectRoot, { server,
    middleware })] *)
Definition attachInspectorProxy (projectRoot : string)
    (server : HttpServer) (middleware : Connect.Server) : Result Attached :=
  match importInspectorProxyServerFromProject projectRoot with
  | Throw e => Throw e
  | Ok InspectorProxy_new =>
      let inspectorProxy := InspectorProxy_new projectRoot in
      let bound :=
        if hasProperty "addWebSocketListener" inspectorProxy then
          [addWebSocketListener server]
        else if hasProperty "createWebSocketListeners" inspectorProxy then
          [createWebSocketListeners server]
        else [] in
      Ok {| bindings := bound;
            middlewareAfter :=
              Connect.use middleware (processRequest inspectorProxy);
            inspectorProxy := inspectorProxy |}
  end.

End AttachInspectorProxy.

(** ** Observations on traces *)

Definition isMetroEnd (e : Event) : bool :=
  match e with MetroEnd => true | _ => false end.

Definition isReport (e : Event) : bool :=
  match e with ReporterUpdate _ _ => true | _ => false end.

Definition isProgressReport (e : Event) : bool :=
  match e with
  | ReporterUpdate _ (bundle_transform_progressed _ _) => true
  | _ => false
  end.

Definition isStartedReport (e : Event) : bool :=
  match e with
  | ReporterUpdate _ (bundle_build_started _) => true
  | _ => false
  end.

Definition isDoneReport (e : Event) : bool :=
  match e with
  | ReporterUpdate _ bundle_build_done => true
  | _ => false
  end.

(** The calls made on the Metro server while the bundles are built, and the
    reports that go with them. *)
Definition isBuildEvent (e : Event) : bool :=
  match e with
  | ReporterUpdate _ _ | MetroBuild _ | MetroGetAssets _ => true
  | _ => false
  end.

Definition isHermesBuild (e : Event) : bool :=
  match e with
  | HermesBuildBegin _ _ _ _ | HermesBuildSettled _ => true
  | _ => false
  end.

(** The bundle options [metroServer.build] was called with, in order. *)
Fixpoint buildCalls (trace : list Event) : list Metro.BundleOptions :=
  match trace with
  | [] => []
  | MetroBuild o :: trace' => o :: buildCalls trace'
  | _ :: trace' => buildCalls trace'
  end.

(** The [optimize] arguments [buildHermesBundleAsync] was called with. *)
Fixpoint hermesOptimizeArgs (trace : list Event) : list (option bool) :=
  match trace with
  | [] => []
  | HermesBuildBegin _ _ _ optimize :: trace' =>
      optimize :: hermesOptimizeArgs trace'
  | _ :: trace' => hermesOptimizeArgs trace'
  end.

(** The build identifiers of the reports, in order. *)
Fixpoint reportedBuildIDs (trace : list Event) : list BuildID :=
  match trace with
  | [] => []
  | ReporterUpdate id _ :: trace' => id :: reportedBuildIDs trace'
  | _ :: trace' => reportedBuildIDs trace'
  end.

(** Every Hermes compilation that begins has settled before the next one
    begins. *)
Fixpoint oneAtATime (compilations : list Event) : bool :=
  match compilations with
  | [] => true
  | HermesBuildBegin _ _ _ _ :: HermesBuildSettled _ :: rest => oneAtATime rest
  | _ => false
  end.

(** [out] is what [buildAsync] returns for [bundle]: the code and map Metro
    built for its bundle options, the assets Metro lists for them, and no
    Hermes property. *)
Definition builtFrom (env : Environment) (o : Metro.BundleOptions)
    (out : BundleOutput) : Prop :=
  settles (build env o) = Ok (code out, map out) /\
  getAssets env o = Ok (assets out) /\
  hermesBytecodeBundle out = None /\
  hermesSourcemap out = None.

(** The state of the promise of [buildAsync] for the bundle options [o]. *)
Definition taskFor (env : Environment) (o : Metro.BundleOptions) (t : Task)
    : Prop :=
  match t with
  | AwaitingBuild o' _ => o' = o
  | AwaitingAssets o' code map =>
      o' = o /\ settles (build env o) = Ok (code, map)
  | Fulfilled out => builtFrom env o out
  end.

(** What the event loop can add to the trace while [Promise.all] is
    awaited. *)
Definition loopEvent (options : MetroDevServerOptions) (buildID : BuildID)
    (e : Event) : Prop :=
  match e with
  | ReporterUpdate id (bundle_transform_progressed _ _) =>
      id = buildID /\ truthy (quiet options) = false
  | ReporterUpdate id bundle_build_done => id = buildID
  | MetroGetAssets _ => True
  | _ => False
  end.

Definition isHermesPhaseEvent (e : Event) : bool :=
  match e with
  | CheckEngine _ _ _ _ | LoggerInfo _ _
  | HermesBuildBegin _ _ _ _ | HermesBuildSettled _ => true
  | _ => false
  end.

(** [paths.dynamicConfigPath ?? paths.staticConfigPath ?? 'app.json'] *)
Definition configFilePathOf (env : Environment) (projectRoot : string)
    : string :=
  let paths := getConfigFilePaths env projectRoot in
  nullishOr (dynamicConfigPath paths) (staticConfigPath paths) ?? "app.json".

(** The platform's bytecode setting conflicts with the engine the app
    declares. *)
Definition engineMismatch (env : Environment) (projectRoot : string)
    (p : Platform) (isHermesManaged : bool) : bool :=
  match platformBytecodeSetting env projectRoot p with
  | Some setting => negb (Bool.eqb setting isHermesManaged)
  | None => false
  end.

(** The message logged before a Hermes compilation. *)
Definition buildingHermesMessage (env : Environment) (p : Platform)
    : string :=
  ("💿 " ++ chalk_bold env (platformName p)
     ++ " Building Hermes bytecode for the bundle")%string.

(** [bundleOutput] with the two Hermes properties assigned. *)
Definition withHermes (bundleOutput : BundleOutput) (h : HermesBundleOutput)
    : BundleOutput :=
  {| code := code bundleOutput;
     map := map bundleOutput;
     hermesBytecodeBundle := Some (hbc h);
     hermesSourcemap := Some (sourcemap h);
     assets := assets bundleOutput |}.

(** [out] is the bundle output of the request [bundle]: Metro's code, map
    and assets for the bundle options of the request, and the Hermes
    bytecode compiled from that code and map when the app configuration
    enables Hermes for the platform of the request. *)
Definition deliveredFor (env : Environment) (projectRoot : string)
    (expoConfig : ExpoConfig) (o : Metro.BundleOptions)
    (bundle : BundleOptions) (out : BundleOutput) : Prop :=
  settles (build env o) = Ok (code out, map out) /\
  getAssets env o = Ok (assets out) /\
  if isEnableHermesManaged env expoConfig (platform bundle) then
    exists h,
      buildHermesBundleAsync env projectRoot (code out) (map out)
        (minify bundle) = Ok h /\
      hermesBytecodeBundle out = Some (hbc h) /\
      hermesSourcemap out = Some (sourcemap h)
  else
    hermesBytecodeBundle out = None /\ hermesSourcemap out = None.

(** The run of a [bundleAsync] that throws before it has a Metro server. *)
Definition notStarted {A} (g : Globals) (e : Error) : Run A :=
  {| emitted := []; globals := g; outcome := Throw e |}.

(** The trace without its progress reports. *)
Definition withoutProgress (trace : list Event) : list Event :=
  filter (fun e => negb (isProgressReport e)) trace.

(** [options] with the quiet flag set to [q]. *)
Definition setQuiet (q : option bool) (options : MetroDevServerOptions)
    : MetroDevServerOptions :=
  {| quiet := q; resetCache := resetCache options; target := target options |}.

(** The events of [bundles.map(bundle => buildAsync(bundle))]. *)
Definition startEvents (buildID : BuildID)
    (DEFAULT_BUNDLE_OPTIONS : Metro.BundleOptions) (config : MetroConfig)
    (bundles : list BundleOptions) : list Event :=
  flat_map
    (fun bundle =>
       [ReporterUpdate buildID
          (bundle_build_started
             (bundleDetailsOf DEFAULT_BUNDLE_OPTIONS config bundle));
        MetroBuild (bundleOptions DEFAULT_BUNDLE_OPTIONS config bundle)])
    bundles.

(** ** A sample project *)

(** Concrete collaborators, to run the definitions on: a project whose app
    configuration enables Hermes on Android only, on a terminal without
    colours. *)
Definition sampleDefaults : Metro.BundleOptions :=
  {| Metro.bundleType := "delta";
     Metro.platform := web;
     Metro.entryFile := "";
     Metro.dev := true;
     Metro.minify := false;
     Metro.inlineSourceMap := true;
     Metro.sourceMapUrl := None;
     Metro.createModuleIdFactory := fun _ => 0;
     Metro.excludeSource := false;
     Metro.runModule := true;
     Metro.shallow := false |}.

Definition sampleConfig : MetroConfig :=
  {| serverPort := 81;
     watchFolders := ["/app"];
     createModuleIdFactory := String.length |}.

Definition sampleEnv : Environment :=
  {| importMetroFromProject := fun _ => Ok tt;
     importMetroServerFromProject := fun _ => Ok sampleDefaults;
     loadAsync := fun _ _ => Ok sampleConfig;
     runMetro := fun _ => Ok tt;
     build := fun o =>
       {| progress := [(1, 2); (2, 2)];
          settles := Ok (("code of " ++ Metro.entryFile o)%string,
                         ("map of " ++ Metro.entryFile o)%string) |};
     getAssets := fun _ =>
       Ok [{| assetName := "icon"; assetHash := "c0ffee"; fileHashes := ["c0ffee"] |}];
     isEnableHermesManaged := fun _ p =>
       match p with android => true | _ => false end;
     getConfigFilePaths := fun _ =>
       {| dynamicConfigPath := None; staticConfigPath := Some "/app/app.json" |};
     platformBytecodeSetting := fun _ _ => None;
     buildHermesBundleAsync := fun _ _ _ _ =>
       Ok {| hbc := [xc6; x1f]; sourcemap := "hermes map" |};
     chalk_bold := fun text => text;
     schedule := fun turn => turn |}.

(** The same project with a native Android project that turns Hermes off. *)
Definition mismatchEnv : Environment :=
  {| importMetroFromProject := importMetroFromProject sampleEnv;
     importMetroServerFromProject := importMetroServerFromProject sampleEnv;
     loadAsync := loadAsync sampleEnv;
     runMetro := runMetro sampleEnv;
     build := build sampleEnv;
     getAssets := getAssets sampleEnv;
     isEnableHermesManaged := isEnableHermesManaged sampleEnv;
     getConfigFilePaths := getConfigFilePaths sampleEnv;
     platformBytecodeSetting := fun _ p =>
       match p with android => Some false | _ => None end;
     buildHermesBundleAsync := buildHermesBundleAsync sampleEnv;
     chalk_bold := chalk_bold sampleEnv;
     schedule := schedule sampleEnv |}.

(** The same project with a Metro server that fails to build for iOS. *)
Definition failingEnv : Environment :=
  {| importMetroFromProject := importMetroFromProject sampleEnv;
     importMetroServerFromProject := importMetroServerFromProject sampleEnv;
     loadAsync := loadAsync sampleEnv;
     runMetro := runMetro sampleEnv;
     build := fun o =>
       match Metro.platform o with
       | ios => {| progress := [(1, 2)];
                   settles := Throw (ExternalError "SyntaxError in App.js") |}
       | _ => build sampleEnv o
       end;
     getAssets := getAssets sampleEnv;
     isEnableHermesManaged := isEnableHermesManaged sampleEnv;
     getConfigFilePaths := getConfigFilePaths sampleEnv;
     platformBytecodeSetting := platformBytecodeSetting sampleEnv;
     buildHermesBundleAsync := buildHermesBundleAsync sampleEnv;
     chalk_bold := chalk_bold sampleEnv;
     schedule := schedule sampleEnv |}.

Definition sampleExpoConfig : ExpoConfig :=
  {| slug := "app";
     jsEngine := None;
     androidJsEngine := Some "hermes";
     iosJsEngine := None |}.

Definition sampleOptions : MetroDevServerOptions :=
  {| quiet := None; resetCache := None; target := None |}.

(** A production request that leaves [minify] unset, and a development
    request. *)
Definition androidRequest : BundleOptions :=
  {| entryPoint := "index.js";
     platform := android;
     dev := Some false;
     minify := None;
     sourceMapUrl := None |}.

Definition iosRequest : BundleOptions :=
  {| entryPoint := "index.js";
     platform := ios;
     dev := Some true;
     minify := None;
     sourceMapUrl := Some "index.map" |}.

(** A development request that asks for minification all the same. *)
Definition minifiedRequest : BundleOptions :=
  {| entryPoint := "index.js";
     platform := web;
     dev := Some true;
     minify := Some true;
     sourceMapUrl := None |}.

Definition freshGlobals : Globals := {| nextBuildID := 0 |}.

(** An inspector proxy that has both binding methods, as a Metro between
    the two versions would, and one that has neither. *)
Definition notFound : Connect.Handler := fun _ => None.

Definition bothBindingsProxy (projectRoot : string) : InspectorProxy :=
  {| properties := ["_projectRoot"; "addWebSocketListener";
                    "createWebSocketListeners"; "processRequest"];
     processRequest := notFound |}.

Definition noBindingProxy (projectRoot : string) : InspectorProxy :=
  {| properties := ["_projectRoot"; "processRequest"];
     processRequest := notFound |}.

Definition sampleServer : HttpServer := {| listeningPort := 81 |}.

Definition sampleMiddleware : Connect.Server := {| Connect.stack := [notFound] |}.

(** ** Further observations on bundleAsync *)

(** [env] with another order of resuming the pending builds. *)
Definition withSchedule (order : nat -> nat) (env : Environment)
    : Environment :=
  {| importMetroFromProject := importMetroFromProject env;
     importMetroServerFromProject := importMetroServerFromProject env;
     loadAsync := loadAsync env;
     runMetro := runMetro env;
     build := build env;
     getAssets := getAssets env;
     isEnableHermesManaged := isEnableHermesManaged env;
     getConfigFilePaths := getConfigFilePaths env;
     platformBytecodeSetting := platformBytecodeSetting env;
     buildHermesBundleAsync := buildHermesBundleAsync env;
     chalk_bold := chalk_bold env;
     schedule := order |}.

(** What the sequential phase does for a request it gets through, read off
    the output it gives for the request: the engine check and, when the app
    configuration enables Hermes for the platform, the log line and the
    compilation of the output's code and map. *)
Definition sequentialEventsFor (env : Environment) (projectRoot : string)
    (expoConfig : ExpoConfig) (bundle : BundleOptions) (out : BundleOutput)
    : list Event :=
  let isHermesManaged :=
    isEnableHermesManaged env expoConfig (platform bundle) in
  CheckEngine projectRoot (configFilePathOf env projectRoot) (platform bundle)
    isHermesManaged
  :: if isHermesManaged then
       [LoggerInfo "expo" (buildingHermesMessage env (platform bundle));
        HermesBuildBegin projectRoot (code out) (map out) (minify bundle);
        HermesBuildSettled true]
     else [].

(** The sequential phase of a whole batch. *)
Fixpoint sequentialEvents (env : Environment) (projectRoot : string)
    (expoConfig : ExpoConfig) (bundles : list BundleOptions)
    (outs : list BundleOutput) : list Event :=
  match bundles, outs with
  | bundle :: bundles', out :: outs' =>
      sequentialEventsFor env projectRoot expoConfig bundle out
      ++ sequentialEvents env projectRoot expoConfig bundles' outs'
  | _, _ => []
  end.

(** The error [e] is one a collaborator raised while the request with the
    bundle options [o] was built. *)
Definition buildRaises (env : Environment) (o : Metro.BundleOptions)
    (e : Error) : Prop :=
  settles (build env o) = Throw e \/ getAssets env o = Throw e.

(** The error [e] is one raised in the sequential phase for the request
    [bundle]: the engine mismatch, or what the Hermes compiler raised. *)
Definition hermesRaises (env : Environment) (projectRoot : string)
    (expoConfig : ExpoConfig) (bundle : BundleOptions) (e : Error) : Prop :=
  let isHermesManaged :=
    isEnableHermesManaged env expoConfig (platform bundle) in
  (engineMismatch env projectRoot (platform bundle) isHermesManaged = true /\
   e = InconsistentEngine (configFilePathOf env projectRoot) (platform bundle))
  \/
  (isHermesManaged = true /\
   exists code map,
     buildHermesBundleAsync env projectRoot code map (minify bundle) = Throw e).

(** The same project with a Hermes compiler that fails. *)
Definition hermesFailsEnv : Environment :=
  {| importMetroFromProject := importMetroFromProject sampleEnv;
     importMetroServerFromProject := importMetroServerFromProject sampleEnv;
     loadAsync := loadAsync sampleEnv;
     runMetro := runMetro sampleEnv;
     build := build sampleEnv;
     getAssets := getAssets sampleEnv;
     isEnableHermesManaged := isEnableHermesManaged sampleEnv;
     getConfigFilePaths := getConfigFilePaths sampleEnv;
     platformBytecodeSetting := platformBytecodeSetting sampleEnv;
     buildHermesBundleAsync := fun _ _ _ _ =>
       Throw (ExternalError "hermesc exited with code 2");
     chalk_bold := chalk_bold sampleEnv;
     schedule := schedule sampleEnv |}.

(** The same project when Metro cannot be started. *)
Definition noServerEnv : Environment :=
  {| importMetroFromProject := importMetroFromProject sampleEnv;
     importMetroServerFromProject := importMetroServerFromProject sampleEnv;
     loadAsync := loadAsync sampleEnv;
     runMetro := fun _ => Throw (ExternalError "EADDRINUSE");
     build := build sampleEnv;
     getAssets := getAssets sampleEnv;
     isEnableHermesManaged := isEnableHermesManaged sampleEnv;
     getConfigFilePaths := getConfigFilePaths sampleEnv;
     platformBytecodeSetting := platformBytecodeSetting sampleEnv;
     buildHermesBundleAsync := buildHermesBundleAsync sampleEnv;
     chalk_bold := chalk_bold sampleEnv;
     schedule := schedule sampleEnv |}.



(** ** runMetroDevServerAsync *)

(** The two sockets [attachToServer] returns. *)
Record MessageSocket := { messageSocketId : nat }.
Record EventsSocket := { eventsSocketId : nat }.

(** What [createDevServerMiddleware] returns. *)
Record DevServerMiddleware := {
  middleware : Connect.Server;
  attachToServer : HttpServer -> MessageSocket * EventsSocket;
}.

(** The loaded Metro configuration with its [server.enhanceMiddleware]. *)
Record LoadedMetroConfig := {
  metroConfig : MetroConfig;
  server_enhanceMiddleware : option EnhanceMiddleware;
}.

(** What one call of [createDevServerAsync] does: the calls it makes to
    [config.server.enhanceMiddleware] while it starts, in order, each with
    Metro's middleware and server, and how its promise settles. *)
Record DevServerStart := {
  enhanceMiddlewareCalls : list (Connect.Handler * MetroServer);
  listening : Result HttpServer;
}.

Record DevServerEnvironment := {
  (** [ExpoMetroConfig.loadAsync(projectRoot, { reporter, ...options })] *)
  loadDevConfigAsync :
    string -> MetroDevServerOptions -> Result LoadedMetroConfig;
  (** [createDevServerMiddleware({ port, watchFolders, logger })] *)
  createDevServerMiddleware : nat -> list string -> DevServerMiddleware;
  (** [createDevServerAsync(projectRoot, { config, logger })] *)
  createDevServerAsync : string -> MetroConfig -> DevServerStart;
}.

(** The function in [reporter.reportEvent]. *)
Inductive ReportEventFunction :=
| LogReporter_reportEvent
| EventsSocket_reportEvent (eventsSocket : EventsSocket).

Inductive DevServerCall :=
| LoadConfigCall (projectRoot : string)
| CreateDevServerMiddlewareCall (port : nat) (watchFolders : list string)
| CreateDevServerCall (projectRoot : string)
| AttachToServerCall (server : HttpServer).

Module DevServer.
(** [{ server, middleware, messageSocket }] *)
Record Started := {
  server : HttpServer;
  middleware : Connect.Server;
  messageSocket : MessageSocket;
}.
End DevServer.

(** A call of [runMetroDevServerAsync]: the collaborators it called, the
    function left in [reporter.reportEvent], and what it returns or
    throws. *)
Record DevServerRun := {
  devServerCalls : list DevServerCall;
  reporter_reportEvent : ReportEventFunction;
  devServerOutcome : Result DevServer.Started;
}.

(** [export async function runMetroDevServerAsync(projectRoot, options)].
    The enhancer installed in the configuration is [enhanceMiddleware]
    above; each of its calls pushes on the one [middleware] object, which
    is the object returned in the end. *)
Definition runMetroDevServerAsync (env : DevServerEnvironment)
    (projectRoot : string) (options : MetroDevServerOptions) : DevServerRun :=
  match loadDevConfigAsync env projectRoot options with
  | Throw e =>
      {| devServerCalls := [LoadConfigCall projectRoot];
         reporter_reportEvent := LogReporter_reportEvent;
         devServerOutcome := Throw e |}
  | Ok loaded =>
      let metroConfig := metroConfig loaded in
      let created :=
        createDevServerMiddleware env
          (serverPort metroConfig) (watchFolders metroConfig) in
      let customEnhanceMiddleware := server_enhanceMiddleware loaded in
      let start := createDevServerAsync env projectRoot metroConfig in
      let middleware :=
        fold_left
          (fun middleware call =>
             enhanceMiddleware customEnhanceMiddleware middleware
               (fst call) (snd call))
          (enhanceMiddlewareCalls start) (middleware created) in
      let calls :=
        [LoadConfigCall projectRoot;
         CreateDevServerMiddlewareCall
           (serverPort metroConfig) (watchFolders metroConfig);
         CreateDevServerCall projectRoot] in
      match listening start with
      | Throw e =>
          {| devServerCalls := calls;
             reporter_reportEvent := LogReporter_reportEvent;
             devServerOutcome := Throw e |}
      | Ok server =>
          let sockets := attachToServer created server in
          {| devServerCalls := calls ++ [AttachToServerCall server];
             reporter_reportEvent := EventsSocket_reportEvent (snd sockets);
             devServerOutcome :=
               Ok {| DevServer.server := server;
                     DevServer.middleware := middleware;
                     DevServer.messageSocket := fst sockets |} |}
      end
  end.

(** What the custom enhancer, when there is one, makes of Metro's
    middleware. *)
Definition enhanced (customEnhanceMiddleware : option EnhanceMiddleware)
    (call : Connect.Handler * MetroServer) : Connect.Handler :=
  match customEnhanceMiddleware with
  | Some custom => custom (fst call) (snd call)
  | None => fst call
  end.

(** A dev server for the sample project: a base stack of two handlers, a
    custom enhancer that answers [/status] itself, and a Metro that calls
    the enhancer once. *)
Definition serveStatic : Connect.Handler :=
  fun req =>
    if String.eqb (Connect.url req) "/favicon.ico" then
      Some {| Connect.statusCode := 200; Connect.body := "icon" |}
    else None.

Definition metroHandler : Connect.Handler :=
  fun req =>
    Some {| Connect.statusCode := 200;
            Connect.body := ("bundle for " ++ Connect.url req)%string |}.

Definition statusEnhancer : EnhanceMiddleware :=
  fun metroMiddleware _ req =>
    if String.eqb (Connect.url req) "/status" then
      Some {| Connect.statusCode := 200; Connect.body := "packager-status:running" |}
    else metroMiddleware req.

Definition sampleDevEnv : DevServerEnvironment :=
  {| loadDevConfigAsync := fun _ _ =>
       Ok {| metroConfig := sampleConfig;
             server_enhanceMiddleware := Some statusEnhancer |};
     createDevServerMiddleware := fun _ _ =>
       {| middleware := {| Connect.stack := [notFound; serveStatic] |};
          attachToServer := fun _ =>
            ({| messageSocketId := 1 |}, {| eventsSocketId := 2 |}) |};
     createDevServerAsync := fun root _ =>
       {| enhanceMiddlewareCalls :=
            [(metroHandler, {| serverProjectRoot := root |})];
          listening := Ok {| listeningPort := 81 |} |} |}.

(** The same when the port is taken. *)
Definition portTakenDevEnv : DevServerEnvironment :=
  {| loadDevConfigAsync := loadDevConfigAsync sampleDevEnv;
     createDevServerMiddleware := createDevServerMiddleware sampleDevEnv;
     createDevServerAsync := fun root _ =>
       {| enhanceMiddlewareCalls :=
            [(metroHandler, {| serverProjectRoot := root |})];
          listening := Throw (ExternalError "EADDRINUSE") |} |}.

(** What [runMetroDevServerAsync] returns for the sample dev server. *)
Definition sampleStarted : DevServer.Started :=
  {| DevServer.server := {| listeningPort := 81 |};
     DevServer.middleware :=
       {| Connect.stack :=
            [notFound; serveStatic;
             statusEnhancer metroHandler {| serverProjectRoot := "/app" |}] |};
     DevServer.messageSocket := {| messageSocketId := 1 |} |}.

(** ** The build phase *)

Local Arguments Nat.modulo : simpl never.

Section BuildPhase.

Variable env : Environment.
Variable options : MetroDevServerOptions.
Variable buildID : BuildID.

Lemma resume_events (t : Task) :
  Forall (loopEvent options buildID) (fst (resume env options buildID t)).
Proof.
  destruct t as [o [|[transformed total] callbacks]|o c m|out]; simpl.
  - destruct (settles (build env o)) as [[c m]|e]; simpl;
      repeat constructor.
  - unfold onProgress.
    destruct (truthy (quiet options)) eqn:Hq; simpl;
      repeat constructor; auto.
  - destruct (getAssets env o); simpl; repeat constructor.
  - constructor.
Qed.

Lemma resumeNth_events (ts : list Task) :
  forall k, Forall (loopEvent options buildID)
              (fst (resumeNth env options buildID k ts)).
Proof.
  induction ts as [|t ts IH]; intros k; simpl; [constructor|].
  destruct (pending t).
  - destruct k as [|k].
    + generalize (resume_events t).
      destruct (resume env options buildID t); simpl; auto.
    + specialize (IH k).
      destruct (resumeNth env options buildID k ts); simpl in *; auto.
  - specialize (IH k).
    destruct (resumeNth env options buildID k ts); simpl in *; auto.
Qed.

Lemma eventLoop_events (fuel : nat) :
  forall turn ts,
    Forall (loopEvent options buildID)
      (fst (eventLoop env options buildID fuel turn ts)).
Proof.
  induction fuel as [|fuel IH]; intros turn ts; simpl; [constructor|].
  destruct (pendingCount ts) as [|n] eqn:Hn; simpl; [constructor|].
  generalize (resumeNth_events ts (schedule env turn mod S n)).
  destruct (resumeNth env options buildID (schedule env turn mod S n) ts)
    as [evs [ts'|e]]; simpl; intros Hevs; auto.
  specialize (IH (S turn) ts').
  destruct (eventLoop env options buildID fuel (S turn) ts'); simpl in *.
  apply Forall_app; auto.
Qed.

(** A turn of the loop takes one turn off the promise it resumes and
    leaves every promise the promise of its request. *)
Lemma resume_progress (t t' : Task) (evs : list Event) :
  pending t = true ->
  resume env options buildID t = (evs, Ok t') ->
  turns t = S (turns t') /\
  (forall o, taskFor env o t -> taskFor env o t') /\
  List.length (filter isDoneReport evs) + (if pending t' then 1 else 0) = 1.
Proof.
  destruct t as [o [|[transformed total] callbacks]|o c m|out];
    simpl; intros Hp H; try discriminate.
  - destruct (settles (build env o)) as [[c m]|e] eqn:Hb;
      inversion H; subst; simpl.
    repeat split; intros; subst; auto.
  - inversion H; subst; simpl. repeat split; auto; try lia.
    unfold onProgress. destruct (negb (truthy (quiet options))); reflexivity.
  - destruct (getAssets env o) as [a|e] eqn:Ha; inversion H; subst; simpl.
    repeat split; auto.
    all: intros; simpl in *; intuition (subst; auto).
Qed.

Lemma resumeNth_progress (ts : list Task) :
  forall k ts' evs,
    k < pendingCount ts ->
    resumeNth env options buildID k ts = (evs, Ok ts') ->
    turnsLeft ts = S (turnsLeft ts') /\
    (forall os, Forall2 (taskFor env) os ts -> Forall2 (taskFor env) os ts') /\
    List.length (filter isDoneReport evs) + pendingCount ts' = pendingCount ts.
Proof.
  unfold turnsLeft, pendingCount.
  induction ts as [|t ts IH]; intros k ts' evs Hk H; simpl in *; [lia|].
  destruct (pending t) eqn:Hp; simpl in *.
  - destruct k as [|k].
    + destruct (resume env options buildID t) as [evs0 [t'|e]] eqn:Hr;
        simpl in H; inversion H; subst; clear H.
      destruct (resume_progress _ _ _ Hp Hr) as (Ht & Hinv & Hd).
      simpl. repeat split.
      * lia.
      * intros os Hos. inversion Hos; subst. constructor; auto.
      * destruct (pending t'); simpl; lia.
    + destruct (resumeNth env options buildID k ts) as [evs0 [ts0|e]] eqn:Hr;
        simpl in H; inversion H; subst; clear H.
      destruct (IH k ts0 evs ltac:(lia) Hr) as (Ht & Hinv & Hd).
      simpl. rewrite Hp. simpl. repeat split.
      * lia.
      * intros os Hos. inversion Hos; subst. constructor; auto.
      * lia.
  - destruct (resumeNth env options buildID k ts) as [evs0 [ts0|e]] eqn:Hr;
      simpl in H; inversion H; subst; clear H.
    destruct (IH k ts0 evs Hk Hr) as (Ht & Hinv & Hd).
    simpl. rewrite Hp. repeat split.
    + lia.
    + intros os Hos. inversion Hos; subst. constructor; auto.
    + lia.
Qed.

End BuildPhase.

Section BuildPhaseResults.

Variable env : Environment.
Variable options : MetroDevServerOptions.
Variable buildID : BuildID.

Lemma turnsLeft_0_pendingCount (ts : list Task) :
  turnsLeft ts = 0 -> pendingCount ts = 0.
Proof.
  unfold turnsLeft, pendingCount.
  induction ts as [|t ts IH]; simpl; intros H; [reflexivity|].
  destruct t; simpl in *; lia.
Qed.

Lemma fulfilledValues_builtFrom (ts : list Task) :
  forall os,
    pendingCount ts = 0 ->
    Forall2 (taskFor env) os ts ->
    Forall2 (builtFrom env) os (fulfilledValues ts).
Proof.
  unfold pendingCount.
  induction ts as [|t ts IH]; intros os Hp Hos; inversion Hos; subst;
    simpl in *; [constructor|].
  destruct t; simpl in *; try discriminate.
  constructor; auto.
Qed.

(** With the turns that are left as fuel, the loop ends with every promise
    fulfilled, each with the output built for its own request, and with
    one done report for each promise that was pending. *)
Lemma eventLoop_fulfils (fuel : nat) :
  forall turn ts os evs outs,
    turnsLeft ts <= fuel ->
    Forall2 (taskFor env) os ts ->
    eventLoop env options buildID fuel turn ts = (evs, Ok outs) ->
    Forall2 (builtFrom env) os outs /\
    List.length (filter isDoneReport evs) = pendingCount ts.
Proof.
  induction fuel as [|fuel IH]; intros turn ts os evs outs Hfuel Hos H;
    simpl in H.
  - inversion H; subst; clear H.
    assert (Hp : pendingCount ts = 0)
      by (apply turnsLeft_0_pendingCount; lia).
    split; [apply fulfilledValues_builtFrom; auto | simpl; lia].
  - destruct (pendingCount ts) as [|n] eqn:Hn.
    + inversion H; subst; clear H.
      split; [apply fulfilledValues_builtFrom; auto | reflexivity].
    + destruct (resumeNth env options buildID (schedule env turn mod S n) ts)
        as [evs0 [ts'|e]] eqn:Hr; [|discriminate].
      destruct (eventLoop env options buildID fuel (S turn) ts')
        as [evs1 r1] eqn:Hl.
      inversion H; subst; clear H.
      assert (Hk : schedule env turn mod S n < pendingCount ts).
      { rewrite Hn. apply Nat.mod_upper_bound. discriminate. }
      edestruct resumeNth_progress as (Ht & Hinv & Hd); [exact Hk | exact Hr |].
      edestruct IH as (Hb & Hc); [| exact (Hinv _ Hos) | exact Hl |]; [lia|].
      split; [exact Hb|].
      rewrite filter_app, length_app. lia.
Qed.

Variable DEFAULT_BUNDLE_OPTIONS : Metro.BundleOptions.
Variable config : MetroConfig.

Lemma Promise_all_buildAsync_unfold (bundles : list BundleOptions) :
  let ts := List.map snd
              (List.map (buildAsync env DEFAULT_BUNDLE_OPTIONS config buildID)
                 bundles) in
  let loop := eventLoop env options buildID (turnsLeft ts) 0 ts in
  Promise_all_buildAsync env options DEFAULT_BUNDLE_OPTIONS config buildID
    bundles
  = (startEvents buildID DEFAULT_BUNDLE_OPTIONS config bundles ++ fst loop,
     snd loop).
Proof.
  intros ts loop. unfold Promise_all_buildAsync. fold ts. fold loop.
  destruct loop as [evs r]. simpl. f_equal. f_equal.
  clear. unfold startEvents.
  induction bundles as [|b bs IH]; simpl; [reflexivity|].
  now rewrite IH.
Qed.

Lemma Promise_all_buildAsync_spec (bundles : list BundleOptions) :
  exists evs r,
    Promise_all_buildAsync env options DEFAULT_BUNDLE_OPTIONS config buildID
      bundles
    = (startEvents buildID DEFAULT_BUNDLE_OPTIONS config bundles ++ evs, r) /\
    Forall (loopEvent options buildID) evs /\
    forall outs,
      r = Ok outs ->
      Forall2 (builtFrom env)
        (List.map (bundleOptions DEFAULT_BUNDLE_OPTIONS config) bundles) outs /\
      List.length (filter isDoneReport evs) = List.length bundles.
Proof.
  rewrite Promise_all_buildAsync_unfold.
  set (ts := List.map snd
               (List.map (buildAsync env DEFAULT_BUNDLE_OPTIONS config buildID)
                  bundles)).
  assert (Hts : Forall2 (taskFor env)
                  (List.map (bundleOptions DEFAULT_BUNDLE_OPTIONS config) bundles)
                  ts).
  { subst ts. induction bundles as [|b bs IH]; simpl; constructor; auto.
    reflexivity. }
  assert (Hp : pendingCount ts = List.length bundles).
  { clear Hts. subst ts. unfold pendingCount.
    induction bundles as [|b bs IH]; [reflexivity|].
    cbn. now f_equal. }
  generalize (eventLoop_events env options buildID (turnsLeft ts) 0 ts).
  destruct (eventLoop env options buildID (turnsLeft ts) 0 ts)
    as [evs r] eqn:Hl; simpl; intros Hevs.
  exists evs, r. split; [reflexivity|]. split; [exact Hevs|].
  intros outs Hr. subst r. rewrite <- Hp.
  eapply eventLoop_fulfils; [apply le_n | exact Hts | exact Hl].
Qed.

End BuildPhaseResults.

(** ** The Hermes phase *)

Section HermesPhase.

Variable env : Environment.
Variable projectRoot : string.
Variable expoConfig : ExpoConfig.

(** The three ways [maybeAddHermesBundleAsync] can run. *)
Lemma maybeAddHermesBundleAsync_run
    (bundle : BundleOptions) (out : BundleOutput) (g : Globals) :
  maybeAddHermesBundleAsync env projectRoot expoConfig bundle out g =
  let configFilePath := configFilePathOf env projectRoot in
  let isHermesManaged :=
    isEnableHermesManaged env expoConfig (platform bundle) in
  let check :=
    CheckEngine projectRoot configFilePath (platform bundle) isHermesManaged in
  if engineMismatch env projectRoot (platform bundle) isHermesManaged then
    {| emitted := [check];
       globals := g;
       outcome := Throw (InconsistentEngine configFilePath (platform bundle)) |}
  else if isHermesManaged then
    let r := buildHermesBundleAsync env projectRoot (code out) (map out)
               (minify bundle) in
    {| emitted := [check;
                   LoggerInfo "expo" (buildingHermesMessage env (platform bundle));
                   HermesBuildBegin projectRoot (code out) (map out)
                     (minify bundle);
                   HermesBuildSettled (isOk r)];
       globals := g;
       outcome := mapResult (withHermes out) r |}
  else
    {| emitted := [check]; globals := g; outcome := Ok out |}.
Proof.
  unfold maybeAddHermesBundleAsync, maybeThrowFromInconsistentEngineAsync,
    engineMismatch, awaitBuildHermesBundleAsync, bind, emit, await, ret, throw.
  unfold configFilePathOf. simpl.
  destruct (platformBytecodeSetting env projectRoot (platform bundle))
    as [setting|]; simpl.
  - destruct (Bool.eqb setting
                (isEnableHermesManaged env expoConfig (platform bundle)));
      simpl; [|reflexivity].
    destruct (isEnableHermesManaged env expoConfig (platform bundle));
      simpl; [|reflexivity].
    destruct (buildHermesBundleAsync env projectRoot (code out) (map out)
                (minify bundle)); reflexivity.
  - destruct (isEnableHermesManaged env expoConfig (platform bundle));
      simpl; [|reflexivity].
    destruct (buildHermesBundleAsync env projectRoot (code out) (map out)
                (minify bundle)); reflexivity.
Qed.

Lemma hermesLoop_cons (bundle : BundleOptions) (rest : list BundleOptions)
    (i : nat) (inter acc : list BundleOutput) (g : Globals) :
  hermesLoop env projectRoot expoConfig (bundle :: rest) i inter acc g =
  match nth_error inter i with
  | None =>
      {| emitted := []; globals := g;
         outcome := Throw (TypeError "Cannot read properties of undefined") |}
  | Some intermediate =>
      let r := maybeAddHermesBundleAsync env projectRoot expoConfig
                 bundle intermediate g in
      match outcome r with
      | Throw e =>
          {| emitted := emitted r; globals := globals r; outcome := Throw e |}
      | Ok out =>
          let r' := hermesLoop env projectRoot expoConfig rest (S i) inter
                      (acc ++ [out]) (globals r) in
          {| emitted := emitted r ++ emitted r';
             globals := globals r';
             outcome := outcome r' |}
      end
  end.
Proof.
  simpl. destruct (nth_error inter i); reflexivity.
Qed.

(** One iteration of the loop, as [maybeAddHermesBundleAsync_run] has
    it. *)
Ltac iteration bundle intermediate g :=
  rewrite (maybeAddHermesBundleAsync_run bundle intermediate g); cbv zeta;
  destruct (engineMismatch env projectRoot (platform bundle)
              (isEnableHermesManaged env expoConfig (platform bundle)))
    eqn:?Hmismatch;
  [| destruct (isEnableHermesManaged env expoConfig (platform bundle))
       eqn:?Hmanaged;
     [ destruct (buildHermesBundleAsync env projectRoot (code intermediate)
                   (map intermediate) (minify bundle)) eqn:?Hhermes |] ];
  cbn [outcome emitted globals mapResult isOk].

Lemma hermesLoop_globals (rest : list BundleOptions) :
  forall i inter acc g,
    globals (hermesLoop env projectRoot expoConfig rest i inter acc g) = g.
Proof.
  induction rest as [|bundle rest IH]; intros i inter acc g;
    [reflexivity|].
  rewrite hermesLoop_cons.
  destruct (nth_error inter i) as [intermediate|]; [|reflexivity].
  cbv zeta. iteration bundle intermediate g; auto.
Qed.

Lemma hermesLoop_events (rest : list BundleOptions) :
  forall i inter acc g,
    Forall (fun e => isHermesPhaseEvent e = true)
      (emitted (hermesLoop env projectRoot expoConfig rest i inter acc g)).
Proof.
  induction rest as [|bundle rest IH]; intros i inter acc g;
    [constructor|].
  rewrite hermesLoop_cons.
  destruct (nth_error inter i) as [intermediate|]; [|constructor].
  cbv zeta. iteration bundle intermediate g;
    repeat (constructor; [reflexivity|]); auto.
Qed.

Lemma hermesLoop_oneAtATime (rest : list BundleOptions) :
  forall i inter acc g,
    oneAtATime
      (filter isHermesBuild
         (emitted (hermesLoop env projectRoot expoConfig rest i inter acc g)))
    = true.
Proof.
  induction rest as [|bundle rest IH]; intros i inter acc g;
    [reflexivity|].
  rewrite hermesLoop_cons.
  destruct (nth_error inter i) as [intermediate|]; [|reflexivity].
  cbv zeta. iteration bundle intermediate g; simpl; auto.
Qed.

(** What the loop returns, from what one iteration returns: when every
    intermediate output is [P]-related to its request and an iteration
    turns a [P]-related output into a [Q]-related one, the outputs are
    [Q]-related to the requests, in order. *)
Lemma hermesLoop_outputs
    (P Q : BundleOptions -> BundleOutput -> Prop) :
  (forall bundle intermediate out g,
      P bundle intermediate ->
      outcome (maybeAddHermesBundleAsync env projectRoot expoConfig
                 bundle intermediate g) = Ok out ->
      Q bundle out) ->
  forall rest done todo acc g outs,
    Forall2 P rest todo ->
    outcome (hermesLoop env projectRoot expoConfig rest (List.length done)
               (done ++ todo) acc g) = Ok outs ->
    exists outs', outs = acc ++ outs' /\ Forall2 Q rest outs'.
Proof.
  intros Hstep.
  induction rest as [|bundle rest IH]; intros done todo acc g outs Hall H.
  - simpl in H. inversion H; subst. exists []. rewrite app_nil_r. auto.
  - inversion Hall as [|? intermediate ? todo' Hp Hall']; subst.
    rewrite hermesLoop_cons in H.
    rewrite nth_error_app2, Nat.sub_diag in H by lia. simpl in H.
    destruct (outcome (maybeAddHermesBundleAsync env projectRoot expoConfig
                         bundle intermediate g)) as [out|e] eqn:Hout;
      simpl in H; [|discriminate].
    replace (done ++ intermediate :: todo')
      with ((done ++ [intermediate]) ++ todo') in H
      by (rewrite <- app_assoc; reflexivity).
    replace (S (List.length done))
      with (List.length (done ++ [intermediate])) in H
      by (rewrite length_app; simpl; lia).
    destruct (IH _ _ _ _ _ Hall' H) as (outs' & -> & Hq).
    exists (out :: outs'). rewrite <- app_assoc. split; [reflexivity|].
    constructor; eauto.
Qed.

End HermesPhase.

Section HermesPhaseMismatch.

Variable env : Environment.
Variable projectRoot : string.
Variable expoConfig : ExpoConfig.

(** A check that finds a mismatch is the last thing the loop does. *)
Lemma hermesLoop_mismatch (rest : list BundleOptions) :
  forall i inter acc g root' cfg' p m,
    In (CheckEngine root' cfg' p m)
      (emitted (hermesLoop env projectRoot expoConfig rest i inter acc g)) ->
    engineMismatch env root' p m = true ->
    cfg' = configFilePathOf env projectRoot /\
    outcome (hermesLoop env projectRoot expoConfig rest i inter acc g)
    = Throw (InconsistentEngine cfg' p) /\
    exists before,
      emitted (hermesLoop env projectRoot expoConfig rest i inter acc g)
      = before ++ [CheckEngine root' cfg' p m].
Proof.
  induction rest as [|bundle rest IH];
    intros i inter acc g root' cfg' p m Hin Hmis;
    [destruct Hin|].
  rewrite hermesLoop_cons in *.
  destruct (nth_error inter i) as [intermediate|]; [|destruct Hin].
  cbv zeta in *.
  rewrite (maybeAddHermesBundleAsync_run env projectRoot expoConfig
             bundle intermediate g) in *.
  cbv zeta in *.
  destruct (engineMismatch env projectRoot (platform bundle)
              (isEnableHermesManaged env expoConfig (platform bundle)))
    eqn:Hb.
  - cbn [outcome emitted globals] in *.
    destruct Hin as [Heq|[]]. inversion Heq; subst.
    repeat split; auto. exists []. reflexivity.
  - destruct (isEnableHermesManaged env expoConfig (platform bundle))
      eqn:Hm.
    + destruct (buildHermesBundleAsync env projectRoot (code intermediate)
                  (map intermediate) (minify bundle)) eqn:Hh;
        cbn [outcome emitted globals mapResult isOk] in *.
      * apply in_app_or in Hin. destruct Hin as [Hin|Hin].
        -- destruct Hin as [Heq|[Heq|[Heq|[Heq|[]]]]]; inversion Heq; subst.
           congruence.
        -- destruct (IH _ _ _ _ _ _ _ _ Hin Hmis) as (Hc & Ho & before & Hb').
           repeat split; auto. rewrite Hb'.
           eexists. rewrite app_assoc. reflexivity.
      * destruct Hin as [Heq|[Heq|[Heq|[Heq|[]]]]]; inversion Heq; subst.
        congruence.
    + cbn [outcome emitted globals] in *.
      apply in_app_or in Hin. destruct Hin as [Hin|Hin].
      * destruct Hin as [Heq|[]]; inversion Heq; subst. congruence.
      * destruct (IH _ _ _ _ _ _ _ _ Hin Hmis) as (Hc & Ho & before & Hb').
        repeat split; auto. rewrite Hb'.
        eexists. rewrite app_assoc. reflexivity.
Qed.

End HermesPhaseMismatch.

(** ** bundleAsync as a whole *)

Section WholeRun.

Variable env : Environment.
Variable projectRoot : string.
Variable expoConfig : ExpoConfig.
Variable options : MetroDevServerOptions.

(** [bundleAsync], step by step. *)
Lemma bundleAsync_run (bundles : list BundleOptions) (g : Globals) :
  bundleAsync env projectRoot expoConfig options bundles g =
  match importMetroFromProject env projectRoot with
  | Throw e => notStarted g e
  | Ok _ =>
  match importMetroServerFromProject env projectRoot with
  | Throw e => notStarted g e
  | Ok defaults =>
  match loadAsync env projectRoot options with
  | Throw e => notStarted g e
  | Ok config =>
  let g' := {| nextBuildID := S (nextBuildID g) |} in
  match runMetro env config with
  | Throw e => notStarted g' e
  | Ok _ =>
  let p := Promise_all_buildAsync env options defaults config
             (bundle_ (nextBuildID g)) bundles in
  match snd p with
  | Throw e =>
      {| emitted := fst p ++ [MetroEnd]; globals := g'; outcome := Throw e |}
  | Ok intermediateOutputs =>
      let h := hermesLoop env projectRoot expoConfig bundles 0
                 intermediateOutputs [] g' in
      {| emitted := (fst p ++ emitted h) ++ [MetroEnd];
         globals := globals h;
         outcome := outcome h |}
  end end end end end.
Proof.
  unfold bundleAsync, bind, await, postIncrementNextBuildID, tryFinally,
    traced, metroServer_end, emit, notStarted.
  cbn [outcome emitted globals].
  destruct (importMetroFromProject env projectRoot); [|reflexivity].
  cbn [outcome emitted globals].
  destruct (importMetroServerFromProject env projectRoot) as [defaults|];
    [|reflexivity].
  cbn [outcome emitted globals].
  destruct (loadAsync env projectRoot options) as [config|]; [|reflexivity].
  cbn [outcome emitted globals].
  destruct (runMetro env config); [|reflexivity].
  cbn [outcome emitted globals app].
  destruct (snd (Promise_all_buildAsync env options defaults config
                   (bundle_ (nextBuildID g)) bundles));
    cbn [outcome emitted globals app]; reflexivity.
Qed.

End WholeRun.

(** ** Reading traces *)

Lemma filter_none {A} (f : A -> bool) (l : list A) :
  Forall (fun a => f a = false) l -> filter f l = [].
Proof.
  induction 1 as [|a l Ha _ IH]; simpl; [reflexivity|].
  now rewrite Ha.
Qed.

Lemma filter_all {A} (f : A -> bool) (l : list A) :
  Forall (fun a => f a = true) l -> filter f l = l.
Proof.
  induction 1 as [|a l Ha _ IH]; simpl; [reflexivity|].
  now rewrite Ha, IH.
Qed.

Lemma Forall2_map_left {A B C} (R : B -> C -> Prop) (f : A -> B)
    (l : list A) :
  forall l', Forall2 R (List.map f l) l' -> Forall2 (fun a => R (f a)) l l'.
Proof.
  induction l as [|a l IH]; intros l' H; inversion H; subst;
    constructor; auto.
Qed.

Lemma buildCalls_app (l l' : list Event) :
  buildCalls (l ++ l') = buildCalls l ++ buildCalls l'.
Proof.
  induction l as [|e l IH]; simpl; [reflexivity|].
  destruct e; simpl; now rewrite IH.
Qed.

Lemma buildCalls_none (l : list Event) :
  Forall (fun e => match e with MetroBuild _ => False | _ => True end) l ->
  buildCalls l = [].
Proof.
  induction 1 as [|e l He _ IH]; simpl; [reflexivity|].
  destruct e; auto; contradiction.
Qed.

Lemma reportedBuildIDs_app (l l' : list Event) :
  reportedBuildIDs (l ++ l') = reportedBuildIDs l ++ reportedBuildIDs l'.
Proof.
  induction l as [|e l IH]; simpl; [reflexivity|].
  destruct e; simpl; now rewrite IH.
Qed.

Lemma reportedBuildIDs_none (l : list Event) :
  Forall (fun e => isReport e = false) l -> reportedBuildIDs l = [].
Proof.
  induction 1 as [|e l He _ IH]; simpl; [reflexivity|].
  destruct e; auto; discriminate.
Qed.

Lemma loopEvent_reportedBuildIDs options buildID (l : list Event) :
  Forall (loopEvent options buildID) l ->
  Forall (eq buildID) (reportedBuildIDs l).
Proof.
  induction 1 as [|e l He _ IH]; simpl; [constructor|].
  destruct e as [id [d|a b|]| | | | | | |]; simpl in He; try contradiction;
    auto; constructor; intuition congruence.
Qed.

Lemma startEvents_reportedBuildIDs buildID defaults config bundles :
  Forall (eq buildID)
    (reportedBuildIDs (startEvents buildID defaults config bundles)).
Proof.
  induction bundles as [|b bs IH]; simpl; constructor; auto.
Qed.

Lemma startEvents_buildCalls buildID defaults config bundles :
  buildCalls (startEvents buildID defaults config bundles) =
  List.map (bundleOptions defaults config) bundles.
Proof.
  induction bundles as [|b bs IH]; simpl; [reflexivity|].
  now rewrite IH.
Qed.

Lemma startEvents_kind buildID defaults config bundles :
  Forall (fun e => isBuildEvent e = true /\ isProgressReport e = false)
    (startEvents buildID defaults config bundles).
Proof.
  induction bundles as [|b bs IH]; simpl; repeat constructor; auto.
Qed.

Lemma loopEvent_kind options buildID (e : Event) :
  loopEvent options buildID e ->
  isBuildEvent e = true /\ isMetroEnd e = false /\ isHermesBuild e = false /\
  match e with MetroBuild _ => False | _ => True end.
Proof.
  destruct e as [id [d|a b|]| | | | | | |]; simpl; intros H;
    try contradiction; auto.
Qed.

Lemma hermesPhaseEvent_kind (e : Event) :
  isHermesPhaseEvent e = true ->
  isBuildEvent e = false /\ isMetroEnd e = false /\ isReport e = false /\
  isProgressReport e = false /\
  match e with MetroBuild _ => False | _ => True end.
Proof.
  destruct e; simpl; intros H; try discriminate; auto.
Qed.

Lemma startEvents_filter (f : Event -> bool) buildID defaults config bundles :
  (forall e, isBuildEvent e = true -> f e = false) ->
  filter f (startEvents buildID defaults config bundles) = [].
Proof.
  intros Hf. apply filter_none.
  eapply Forall_impl; [|apply startEvents_kind].
  intros e [He _]. auto.
Qed.

Lemma loopEvents_filter (f : Event -> bool) options buildID evs :
  (forall e, isBuildEvent e = true -> f e = false) ->
  Forall (loopEvent options buildID) evs ->
  filter f evs = [].
Proof.
  intros Hf Hevs. apply filter_none.
  eapply Forall_impl; [|exact Hevs].
  intros e He. apply Hf. apply (loopEvent_kind _ _ _ He).
Qed.

Lemma hermesLoop_filter (f : Event -> bool)
    env projectRoot expoConfig rest i inter acc g :
  (forall e, isHermesPhaseEvent e = true -> f e = false) ->
  filter f (emitted (hermesLoop env projectRoot expoConfig rest i inter acc g))
  = [].
Proof.
  intros Hf. apply filter_none.
  eapply Forall_impl; [|apply hermesLoop_events]. auto.
Qed.

Lemma buildEvent_not_end (e : Event) :
  isBuildEvent e = true -> isMetroEnd e = false.
Proof. destruct e; simpl; congruence. Qed.

Lemma buildEvent_not_hermes (e : Event) :
  isBuildEvent e = true -> isHermesBuild e = false.
Proof. destruct e; simpl; congruence. Qed.

Lemma hermesPhaseEvent_not_end (e : Event) :
  isHermesPhaseEvent e = true -> isMetroEnd e = false.
Proof. destruct e; simpl; congruence. Qed.

Lemma hermesPhaseEvent_not_build (e : Event) :
  isHermesPhaseEvent e = true -> isBuildEvent e = false.
Proof. destruct e; simpl; congruence. Qed.

(** ** The claims about bundleAsync *)

Section Claims.

Variable env : Environment.
Variable projectRoot : string.
Variable expoConfig : ExpoConfig.
Variable options : MetroDevServerOptions.

(** One iteration of the Hermes loop on the output of [buildAsync] for a
  request gives the output delivered for that request. *)
Lemma maybeAddHermesBundleAsync_delivers defaults config
  (bundle : BundleOptions) (intermediate out : BundleOutput) (g : Globals) :
builtFrom env (bundleOptions defaults config bundle) intermediate ->
outcome (maybeAddHermesBundleAsync env projectRoot expoConfig
           bundle intermediate g) = Ok out ->
deliveredFor env projectRoot expoConfig
  (bundleOptions defaults config bundle) bundle out.
Proof.
intros (Hb & Ha & Hh1 & Hh2).
rewrite maybeAddHermesBundleAsync_run. cbv zeta. unfold deliveredFor.
destruct (engineMismatch env projectRoot (platform bundle)
            (isEnableHermesManaged env expoConfig (platform bundle)));
  [discriminate|].
destruct (isEnableHermesManaged env expoConfig (platform bundle)).
- destruct (buildHermesBundleAsync env projectRoot (code intermediate)
              (map intermediate) (minify bundle)) as [h|e] eqn:Hh;
    simpl; intros H; inversion H; subst; simpl.
  repeat split; auto. exists h. auto.
- simpl. intros H; inversion H; subst. auto.
Qed.

(** A run that has a Metro server: the build phase, then either the
  rejection of [Promise.all] or the Hermes loop, then [metroServer.end]. *)
Lemma bundleAsync_started (bundles : list BundleOptions) (g : Globals)
  defaults config :
importMetroFromProject env projectRoot = Ok tt ->
importMetroServerFromProject env projectRoot = Ok defaults ->
loadAsync env projectRoot options = Ok config ->
runMetro env config = Ok tt ->
let buildID := bundle_ (nextBuildID g) in
let g' := {| nextBuildID := S (nextBuildID g) |} in
let r := bundleAsync env projectRoot expoConfig options bundles g in
exists evs,
  Forall (loopEvent options buildID) evs /\
  ((exists e,
       emitted r = (startEvents buildID defaults config bundles ++ evs)
                     ++ [MetroEnd] /\
       outcome r = Throw e) \/
   (exists intermediateOutputs,
       let h := hermesLoop env projectRoot expoConfig bundles 0
                  intermediateOutputs [] g' in
       Forall2 (fun bundle =>
                  builtFrom env (bundleOptions defaults config bundle))
         bundles intermediateOutputs /\
       List.length (filter isDoneReport evs) = List.length bundles /\
       emitted r = ((startEvents buildID defaults config bundles ++ evs)
                      ++ emitted h) ++ [MetroEnd] /\
       outcome r = outcome h)).
Proof.
intros H1 H2 H3 H4 buildID g' r. subst r.
rewrite bundleAsync_run, H1, H2, H3. cbv zeta. rewrite H4.
destruct (Promise_all_buildAsync_spec env options buildID defaults config
            bundles) as (evs & p & Hp & Hevs & Hout).
fold buildID. rewrite Hp. cbn [fst snd].
exists evs. split; [exact Hevs|].
destruct p as [inter|e]; cbn [emitted outcome].
- right. exists inter. destruct (Hout inter eq_refl) as [Hb Hd].
  repeat split; auto. apply Forall2_map_left. exact Hb.
- left. exists e. auto.
Qed.

(** A run that returns an array had a Metro server, and returns the outputs
  delivered for its requests, in order. *)
Lemma bundleAsync_outputs (bundles : list BundleOptions) (g : Globals)
  (outs : list BundleOutput) :
outcome (bundleAsync env projectRoot expoConfig options bundles g) = Ok outs ->
exists defaults config,
  importMetroServerFromProject env projectRoot = Ok defaults /\
  loadAsync env projectRoot options = Ok config /\
  Forall2 (fun bundle =>
             deliveredFor env projectRoot expoConfig
               (bundleOptions defaults config bundle) bundle)
    bundles outs.
Proof.
intros H.
destruct (importMetroFromProject env projectRoot) as [[]|e1] eqn:H1;
  [|rewrite bundleAsync_run, H1 in H; discriminate].
destruct (importMetroServerFromProject env projectRoot)
  as [defaults|e2] eqn:H2;
  [|rewrite bundleAsync_run, H1, H2 in H; discriminate].
destruct (loadAsync env projectRoot options) as [config|e3] eqn:H3;
  [|rewrite bundleAsync_run, H1, H2, H3 in H; discriminate].
destruct (runMetro env config) as [[]|e4] eqn:H4;
  [|rewrite bundleAsync_run, H1, H2, H3 in H; cbv zeta in H;
    rewrite H4 in H; discriminate].
exists defaults, config. repeat split; auto.
destruct (bundleAsync_started bundles g defaults config H1 H2 H3 H4)
  as (evs & _ & [(e & _ & He)|(inter & Hb & _ & _ & Ho)]);
  [rewrite He in H; discriminate|].
cbv zeta in Ho. rewrite Ho in H.
destruct (hermesLoop_outputs env projectRoot expoConfig
            (fun bundle => builtFrom env (bundleOptions defaults config bundle))
            (fun bundle => deliveredFor env projectRoot expoConfig
                             (bundleOptions defaults config bundle) bundle)
            (maybeAddHermesBundleAsync_delivers defaults config)
            bundles [] inter [] _ outs Hb H) as (outs' & -> & Hq).
exact Hq.
Qed.

End Claims.

(** A run either throws before it has a Metro server, with nothing done, or
    has one. *)
Lemma bundleAsync_cases env projectRoot expoConfig options bundles g :
  let r := bundleAsync env projectRoot expoConfig options bundles g in
  (emitted r = [] /\ exists e, outcome r = Throw e) \/
  (exists defaults config,
      importMetroFromProject env projectRoot = Ok tt /\
      importMetroServerFromProject env projectRoot = Ok defaults /\
      loadAsync env projectRoot options = Ok config /\
      runMetro env config = Ok tt).
Proof.
  intros r. subst r. rewrite bundleAsync_run.
  destruct (importMetroFromProject env projectRoot) as [[]|e1];
    [|left; simpl; eauto].
  destruct (importMetroServerFromProject env projectRoot) as [defaults|e2];
    [|left; simpl; eauto].
  destruct (loadAsync env projectRoot options) as [config|e3];
    [|left; simpl; eauto].
  cbv zeta.
  destruct (runMetro env config) as [[]|e4] eqn:H4; [|left; simpl; eauto].
  right. exists defaults, config. auto.
Qed.

(** ** Quiet and loud runs side by side *)

Lemma withoutProgress_app (l l' : list Event) :
  withoutProgress (l ++ l') = withoutProgress l ++ withoutProgress l'.
Proof. apply filter_app. Qed.

Lemma withoutProgress_progress (l : list Event) :
  filter isProgressReport (withoutProgress l) = [].
Proof.
  unfold withoutProgress.
  induction l as [|e l IH]; simpl; [reflexivity|].
  destruct (isProgressReport e) eqn:He; simpl; [exact IH|].
  now rewrite He.
Qed.

Lemma withoutProgress_keeps (f : Event -> bool) (l : list Event) :
  (forall e, f e = true -> isProgressReport e = false) ->
  filter f (withoutProgress l) = filter f l.
Proof.
  intros Hf. unfold withoutProgress.
  induction l as [|e l IH]; simpl; [reflexivity|].
  destruct (isProgressReport e) eqn:He; simpl.
  - destruct (f e) eqn:Hfe; [|exact IH].
    apply Hf in Hfe. congruence.
  - now rewrite IH.
Qed.

Section QuietRuns.

Variable env : Environment.
Variable loud hush : MetroDevServerOptions.
Variable buildID : BuildID.
Hypothesis hush_is_quiet : truthy (quiet hush) = true.

Lemma resume_quiet (t : Task) :
resume env hush buildID t =
(withoutProgress (fst (resume env loud buildID t)),
 snd (resume env loud buildID t)).
Proof.
destruct t as [o [|[transformed total] callbacks]|o c m|out]; simpl.
- destruct (settles (build env o)) as [[c m]|e]; reflexivity.
- unfold onProgress. rewrite hush_is_quiet.
  destruct (truthy (quiet loud)); reflexivity.
- destruct (getAssets env o); reflexivity.
- reflexivity.
Qed.

Lemma resumeNth_quiet (ts : list Task) :
forall k,
  resumeNth env hush buildID k ts =
  (withoutProgress (fst (resumeNth env loud buildID k ts)),
   snd (resumeNth env loud buildID k ts)).
Proof.
induction ts as [|t ts IH]; intros k; simpl; [reflexivity|].
destruct (pending t).
- destruct k as [|k].
  + rewrite resume_quiet.
    destruct (resume env loud buildID t); reflexivity.
  + rewrite IH. destruct (resumeNth env loud buildID k ts); reflexivity.
- rewrite IH. destruct (resumeNth env loud buildID k ts); reflexivity.
Qed.

Lemma eventLoop_quiet (fuel : nat) :
forall turn ts,
  eventLoop env hush buildID fuel turn ts =
  (withoutProgress (fst (eventLoop env loud buildID fuel turn ts)),
   snd (eventLoop env loud buildID fuel turn ts)).
Proof.
induction fuel as [|fuel IH]; intros turn ts; simpl; [reflexivity|].
destruct (pendingCount ts) as [|n]; [reflexivity|].
rewrite resumeNth_quiet.
destruct (resumeNth env loud buildID (schedule env turn mod S n) ts)
  as [evs [ts'|e]]; simpl; [|reflexivity].
rewrite IH.
destruct (eventLoop env loud buildID fuel (S turn) ts'); simpl.
now rewrite withoutProgress_app.
Qed.

Lemma Promise_all_buildAsync_quiet defaults config bundles :
Promise_all_buildAsync env hush defaults config buildID bundles =
(withoutProgress
   (fst (Promise_all_buildAsync env loud defaults config buildID bundles)),
 snd (Promise_all_buildAsync env loud defaults config buildID bundles)).
Proof.
rewrite !Promise_all_buildAsync_unfold. cbv zeta. rewrite eventLoop_quiet.
simpl. rewrite withoutProgress_app. f_equal. f_equal.
symmetry. apply filter_all.
eapply Forall_impl; [|apply startEvents_kind].
intros e [_ He]. now rewrite He.
Qed.

End QuietRuns.

(** Every report of a run carries the build identifier the run took from
    [nextBuildID]. *)
Lemma bundleAsync_reportedBuildIDs env projectRoot expoConfig options bundles g :
  Forall (eq (bundle_ (nextBuildID g)))
    (reportedBuildIDs
       (emitted (bundleAsync env projectRoot expoConfig options bundles g))).
Proof.
  destruct (bundleAsync_cases env projectRoot expoConfig options bundles g)
    as [[Hnil _]|(defaults & config & H1 & H2 & H3 & H4)].
  { rewrite Hnil. constructor. }
  destruct (bundleAsync_started env projectRoot expoConfig options bundles g
              defaults config H1 H2 H3 H4)
    as (evs & Hevs & [(e & He & _)|(inter & _ & _ & He & _)]);
    cbv zeta in He; rewrite He; rewrite !reportedBuildIDs_app; simpl;
    rewrite app_nil_r.
  - apply Forall_app. split.
    + apply startEvents_reportedBuildIDs.
    + apply (loopEvent_reportedBuildIDs _ _ _ Hevs).
  - rewrite (reportedBuildIDs_none (emitted _)).
    + rewrite app_nil_r. apply Forall_app. split.
      * apply startEvents_reportedBuildIDs.
      * apply (loopEvent_reportedBuildIDs _ _ _ Hevs).
    + eapply Forall_impl; [|apply hermesLoop_events].
      intros e He'. apply (hermesPhaseEvent_kind _ He').
Qed.


(** ** The claims *)

(** C1.  Once [bundleAsync] has its Metro server (the two imports, the
    configuration and [runMetro] succeeded), [metroServer.end] is called
    exactly once, as the last thing the call does, whether it returns or
    throws; and when it returns, it returns one output per request, the
    i-th one built from the bundle options of the i-th request.  A run that
    throws returns no array at all: its outcome is the error. *)
Theorem bundleAsync_outputs_in_order_and_server_closed_once
    env projectRoot expoConfig options
    (bundles : list BundleOptions) (g : Globals) defaults config :
  importMetroFromProject env projectRoot = Ok tt ->
  importMetroServerFromProject env projectRoot = Ok defaults ->
  loadAsync env projectRoot options = Ok config ->
  runMetro env config = Ok tt ->
  let r := bundleAsync env projectRoot expoConfig options bundles g in
  (exists before,
      emitted r = before ++ [MetroEnd] /\ filter isMetroEnd before = []) /\
  (forall outs,
      outcome r = Ok outs ->
      List.length outs = List.length bundles /\
      Forall2 (fun bundle out =>
                 let o := bundleOptions defaults config bundle in
                 settles (build env o) = Ok (code out, map out) /\
                 getAssets env o = Ok (assets out))
        bundles outs) /\
  (forall e, outcome r = Throw e -> forall outs, outcome r <> Ok outs).
Proof.
  intros H1 H2 H3 H4 r. split; [|split].
  - destruct (bundleAsync_started env projectRoot expoConfig options bundles g
                defaults config H1 H2 H3 H4)
      as (evs & Hevs & [(e & He & _)|(inter & _ & _ & He & _)]);
      fold r in He; cbv zeta in He; rewrite He; eexists;
      (split; [reflexivity|]); rewrite ?filter_app.
    + rewrite (startEvents_filter _ _ _ _ _ buildEvent_not_end).
      rewrite (loopEvents_filter _ _ _ _ buildEvent_not_end Hevs). reflexivity.
    + rewrite (startEvents_filter _ _ _ _ _ buildEvent_not_end).
      rewrite (loopEvents_filter _ _ _ _ buildEvent_not_end Hevs).
      rewrite (hermesLoop_filter _ _ _ _ _ _ _ _ _ hermesPhaseEvent_not_end).
      reflexivity.
  - intros outs Ho.
    destruct (bundleAsync_outputs env projectRoot expoConfig options bundles g
                outs Ho) as (defaults' & config' & E2 & E3 & Hd).
    rewrite H2 in E2. rewrite H3 in E3.
    inversion E2; inversion E3; subst defaults' config'.
    split; [symmetry; eapply Forall2_length; exact Hd|].
    eapply Forall2_impl; [|exact Hd].
    intros bundle out (Hb & Ha & _). auto.
  - intros e He outs Ho. rewrite He in Ho. discriminate.
Qed.

Lemma bundleAsync_outputs_in_order_and_server_closed_once_witness :
  importMetroFromProject sampleEnv "/app" = Ok tt /\
  importMetroServerFromProject sampleEnv "/app" = Ok sampleDefaults /\
  loadAsync sampleEnv "/app" sampleOptions = Ok sampleConfig /\
  runMetro sampleEnv sampleConfig = Ok tt /\
  let r := bundleAsync sampleEnv "/app" sampleExpoConfig sampleOptions
             [androidRequest; iosRequest] freshGlobals in
  isOk (outcome r) = true /\
  (exists before,
      emitted r = before ++ [MetroEnd] /\ filter isMetroEnd before = []) /\
  (forall outs,
      outcome r = Ok outs ->
      List.length outs = 2 /\
      Forall2 (fun bundle out =>
                 let o := bundleOptions sampleDefaults sampleConfig bundle in
                 settles (build sampleEnv o) = Ok (code out, map out) /\
                 getAssets sampleEnv o = Ok (assets out))
        [androidRequest; iosRequest] outs) /\
  (forall e, outcome r = Throw e -> forall outs, outcome r <> Ok outs).
Proof.
  do 4 (split; [reflexivity|]). cbv zeta.
  split; [vm_compute; reflexivity|].
  exact (bundleAsync_outputs_in_order_and_server_closed_once sampleEnv "/app"
           sampleExpoConfig sampleOptions [androidRequest; iosRequest]
           freshGlobals sampleDefaults sampleConfig
           eq_refl eq_refl eq_refl eq_refl).
Defined.

(** A build that fails: the iOS build is rejected while the Android build
    is still under way, and the server is closed all the same, as the last
    event. *)
Example bundleAsync_failing_build :
  let r := bundleAsync failingEnv "/app" sampleExpoConfig sampleOptions
             [androidRequest; iosRequest] freshGlobals in
  outcome r = Throw (ExternalError "SyntaxError in App.js") /\
  List.length (filter isMetroEnd (emitted r)) = 1 /\
  last (emitted r) (LoggerInfo "" "") = MetroEnd /\
  filter isHermesBuild (emitted r) = [].
Proof. cbv zeta. repeat split; vm_compute; reflexivity. Qed.

(** C2.  The request [androidRequest] leaves [minify] unset and is not a
    development build.  Metro builds it with [minify = true]; the Hermes
    compiler is handed the request's own [minify], which is unset. *)
Theorem hermes_compile_gets_the_unset_minify :
  let r := bundleAsync sampleEnv "/app" sampleExpoConfig sampleOptions
             [androidRequest] freshGlobals in
  isOk (outcome r) = true /\
  List.map Metro.minify (buildCalls (emitted r)) = [true] /\
  hermesOptimizeArgs (emitted r) = [None].
Proof. cbv zeta. repeat split; vm_compute; reflexivity. Qed.

(** C3.  In every output [bundleAsync] returns, [hermesBytecodeBundle] and
    [hermesSourcemap] are set exactly when the app configuration enables
    Hermes for the platform of the request the output belongs to. *)
Theorem hermes_fields_iff_hermes_managed
    env projectRoot expoConfig options
    (bundles : list BundleOptions) (g : Globals) (outs : list BundleOutput) :
  outcome (bundleAsync env projectRoot expoConfig options bundles g) = Ok outs ->
  Forall2 (fun bundle out =>
             let enabled :=
               isEnableHermesManaged env expoConfig (platform bundle) in
             (hermesBytecodeBundle out <> None <-> enabled = true) /\
             (hermesSourcemap out <> None <-> enabled = true))
    bundles outs.
Proof.
  intros Ho.
  destruct (bundleAsync_outputs env projectRoot expoConfig options bundles g
              outs Ho) as (defaults & config & _ & _ & Hd).
  eapply Forall2_impl; [|exact Hd].
  intros bundle out (_ & _ & Hh). cbv zeta.
  destruct (isEnableHermesManaged env expoConfig (platform bundle)).
  - destruct Hh as (h & _ & -> & ->). split; split; congruence.
  - destruct Hh as [-> ->]. split; split; congruence.
Qed.

Lemma hermes_fields_iff_hermes_managed_witness :
  outcome (bundleAsync sampleEnv "/app" sampleExpoConfig sampleOptions
             [androidRequest; iosRequest] freshGlobals)
  = Ok [{| code := "code of index.js";
           map := "map of index.js";
           hermesBytecodeBundle := Some [xc6; x1f];
           hermesSourcemap := Some "hermes map";
           assets := [{| assetName := "icon"; assetHash := "c0ffee";
                         fileHashes := ["c0ffee"] |}] |};
        {| code := "code of index.js";
           map := "map of index.js";
           hermesBytecodeBundle := None;
           hermesSourcemap := None;
           assets := [{| assetName := "icon"; assetHash := "c0ffee";
                         fileHashes := ["c0ffee"] |}] |}] /\
  Forall2 (fun bundle out =>
             let enabled :=
               isEnableHermesManaged sampleEnv sampleExpoConfig
                 (platform bundle) in
             (hermesBytecodeBundle out <> None <-> enabled = true) /\
             (hermesSourcemap out <> None <-> enabled = true))
    [androidRequest; iosRequest]
    [{| code := "code of index.js";
        map := "map of index.js";
        hermesBytecodeBundle := Some [xc6; x1f];
        hermesSourcemap := Some "hermes map";
        assets := [{| assetName := "icon"; assetHash := "c0ffee";
                      fileHashes := ["c0ffee"] |}] |};
     {| code := "code of index.js";
        map := "map of index.js";
        hermesBytecodeBundle := None;
        hermesSourcemap := None;
        assets := [{| assetName := "icon"; assetHash := "c0ffee";
                      fileHashes := ["c0ffee"] |}] |}].
Proof.
  split; [reflexivity|].
  apply (hermes_fields_iff_hermes_managed sampleEnv "/app" sampleExpoConfig
           sampleOptions [androidRequest; iosRequest] freshGlobals).
  reflexivity.
Defined.

(** C4.  Every target is checked for engine consistency before anything
    else is done for it in the sequential phase, the targets the app
    configuration enables Hermes for among them.  When a check finds the
    platform's bytecode setting in conflict with the declared engine,
    [bundleAsync] throws the error that names the config file (the dynamic
    config path, else the static one, else app.json), nothing is done after
    that check but closing the server (no bytecode is compiled for the
    target), and no output array is returned. *)
Theorem engine_mismatch_aborts_batch
    env projectRoot expoConfig options
    (bundles : list BundleOptions) (g : Globals)
    (root' configFile : string) (p : Platform) (isHermesManaged : bool) :
  let r := bundleAsync env projectRoot expoConfig options bundles g in
  In (CheckEngine root' configFile p isHermesManaged) (emitted r) ->
  engineMismatch env root' p isHermesManaged = true ->
  configFile = configFilePathOf env projectRoot /\
  outcome r = Throw (InconsistentEngine configFile p) /\
  (exists before,
      emitted r =
      before ++ [CheckEngine root' configFile p isHermesManaged; MetroEnd]) /\
  (forall bundle intermediate g',
      exists rest,
        emitted (maybeAddHermesBundleAsync env projectRoot expoConfig
                   bundle intermediate g')
        = CheckEngine projectRoot (configFilePathOf env projectRoot)
            (platform bundle)
            (isEnableHermesManaged env expoConfig (platform bundle))
          :: rest).
Proof.
  cbv zeta. intros Hin Hmis.
  assert (Hfirst : forall bundle intermediate g',
             exists rest,
               emitted (maybeAddHermesBundleAsync env projectRoot expoConfig
                          bundle intermediate g')
               = CheckEngine projectRoot (configFilePathOf env projectRoot)
                   (platform bundle)
                   (isEnableHermesManaged env expoConfig (platform bundle))
                 :: rest).
  { intros bundle intermediate g'.
    rewrite maybeAddHermesBundleAsync_run. cbv zeta.
    destruct (engineMismatch env projectRoot (platform bundle)
                (isEnableHermesManaged env expoConfig (platform bundle)));
      [|destruct (isEnableHermesManaged env expoConfig (platform bundle))];
      eexists; reflexivity. }
  assert (Hbuild : forall l,
             Forall (fun e => isBuildEvent e = true) l ->
             ~ In (CheckEngine root' configFile p isHermesManaged) l).
  { intros l Hl Hc. rewrite Forall_forall in Hl. apply Hl in Hc.
    discriminate. }
  destruct (bundleAsync_cases env projectRoot expoConfig options bundles g)
    as [[Hnil _]|(defaults & config & H1 & H2 & H3 & H4)].
  { rewrite Hnil in Hin. destruct Hin. }
  destruct (bundleAsync_started env projectRoot expoConfig options bundles g
              defaults config H1 H2 H3 H4)
    as (evs & Hevs & [(e & He & _)|(inter & _ & _ & He & Ho)]);
    cbv zeta in He; rewrite He in Hin; rewrite He.
  - exfalso. rewrite !in_app_iff in Hin.
    destruct Hin as [[Hin|Hin]|[Hin|[]]]; [| |discriminate Hin].
    + revert Hin. apply Hbuild.
      eapply Forall_impl; [|apply startEvents_kind].
      intros a [Ha _]; exact Ha.
    + revert Hin. apply Hbuild.
      eapply Forall_impl; [|exact Hevs].
      intros a Ha. apply (loopEvent_kind _ _ _ Ha).
  - cbv zeta in Ho. rewrite Ho.
    rewrite !in_app_iff in Hin.
    destruct Hin as [[[Hin|Hin]|Hin]|[Hin|[]]]; [| | |discriminate Hin].
    + exfalso. revert Hin. apply Hbuild.
      eapply Forall_impl; [|apply startEvents_kind].
      intros a [Ha _]; exact Ha.
    + exfalso. revert Hin. apply Hbuild.
      eapply Forall_impl; [|exact Hevs].
      intros a Ha. apply (loopEvent_kind _ _ _ Ha).
    + destruct (hermesLoop_mismatch env projectRoot expoConfig bundles 0 inter
                  [] _ root' configFile p isHermesManaged Hin Hmis)
        as (Hc & Hthrow & before & Hb).
      split; [exact Hc|]. split; [exact Hthrow|]. split; [|exact Hfirst].
      rewrite Hb.
      exists ((startEvents (bundle_ (nextBuildID g)) defaults config bundles
                 ++ evs) ++ before).
      rewrite <- !app_assoc. reflexivity.
Qed.

Lemma engine_mismatch_aborts_batch_witness :
  let r := bundleAsync mismatchEnv "/app" sampleExpoConfig sampleOptions
             [iosRequest; androidRequest] freshGlobals in
  In (CheckEngine "/app" "/app/app.json" android true) (emitted r) /\
  engineMismatch mismatchEnv "/app" android true = true /\
  outcome r = Throw (InconsistentEngine "/app/app.json" android) /\
  (exists before,
      emitted r =
      before ++ [CheckEngine "/app" "/app/app.json" android true; MetroEnd]) /\
  filter isHermesBuild (emitted r) = [].
Proof.
  assert (Hin : In (CheckEngine "/app" "/app/app.json" android true)
                  (emitted (bundleAsync mismatchEnv "/app" sampleExpoConfig
                              sampleOptions [iosRequest; androidRequest]
                              freshGlobals))).
  { vm_compute. do 13 right. left. reflexivity. }
  destruct (engine_mismatch_aborts_batch mismatchEnv "/app" sampleExpoConfig
              sampleOptions [iosRequest; androidRequest] freshGlobals
              "/app" "/app/app.json" android true Hin eq_refl)
    as (_ & Hthrow & Hlast & _).
  cbv zeta. repeat split; auto.
Defined.

(** C5.  Whatever order the event loop resumes the concurrent builds in,
    the trace of [bundleAsync] splits into the Metro builds and what
    follows them: no Hermes compilation begins before every build has
    settled, and of the Hermes compilations each has settled before the
    next one begins. *)
Theorem hermes_compilations_one_at_a_time
    env projectRoot expoConfig options
    (bundles : list BundleOptions) (g : Globals) :
  let r := bundleAsync env projectRoot expoConfig options bundles g in
  oneAtATime (filter isHermesBuild (emitted r)) = true /\
  exists builds rest,
    emitted r = builds ++ rest /\
    filter isHermesBuild builds = [] /\
    filter isBuildEvent rest = [].
Proof.
  intros r.
  destruct (bundleAsync_cases env projectRoot expoConfig options bundles g)
    as [[Hnil _]|(defaults & config & H1 & H2 & H3 & H4)].
  { fold r in Hnil. rewrite Hnil. split; [reflexivity|]. exists [], []. auto. }
  destruct (bundleAsync_started env projectRoot expoConfig options bundles g
              defaults config H1 H2 H3 H4)
    as (evs & Hevs & [(e & He & _)|(inter & _ & _ & He & _)]);
    fold r in He; cbv zeta in He; rewrite He.
  - split.
    + rewrite !filter_app.
      rewrite (startEvents_filter _ _ _ _ _ buildEvent_not_hermes).
      rewrite (loopEvents_filter _ _ _ _ buildEvent_not_hermes Hevs).
      reflexivity.
    + eexists. exists [MetroEnd]. split; [reflexivity|].
      split; [|reflexivity]. rewrite filter_app.
      rewrite (startEvents_filter _ _ _ _ _ buildEvent_not_hermes).
      rewrite (loopEvents_filter _ _ _ _ buildEvent_not_hermes Hevs).
      reflexivity.
  - split.
    + rewrite !filter_app.
      rewrite (startEvents_filter _ _ _ _ _ buildEvent_not_hermes).
      rewrite (loopEvents_filter _ _ _ _ buildEvent_not_hermes Hevs).
      simpl. rewrite app_nil_r. apply hermesLoop_oneAtATime.
    + eexists. eexists. split; [rewrite <- app_assoc; reflexivity|].
      split.
      * rewrite filter_app.
        rewrite (startEvents_filter _ _ _ _ _ buildEvent_not_hermes).
        rewrite (loopEvents_filter _ _ _ _ buildEvent_not_hermes Hevs).
        reflexivity.
      * rewrite filter_app.
        rewrite (hermesLoop_filter _ _ _ _ _ _ _ _ _ hermesPhaseEvent_not_build).
        reflexivity.
Qed.

Lemma Connect_run_last (handlers : list Connect.Handler) (h : Connect.Handler)
    (req : Connect.Request) :
  Connect.run (handlers ++ [h]) req =
  match Connect.run handlers req with
  | Some res => Some res
  | None => h req
  end.
Proof.
  induction handlers as [|h0 handlers IH]; simpl.
  - destruct (h req); reflexivity.
  - destruct (h0 req); [reflexivity|exact IH].
Qed.

(** C6.  The merged enhancer first applies the custom enhancer, when the
    loaded config has one, to Metro's middleware, and passes the result to
    [middleware.use]: the enhanced middleware becomes the last handler of
    the base stack, so that a request runs through the base stack and then
    reaches what the custom enhancer made of Metro's middleware.  Without a
    custom enhancer Metro's middleware is passed to [middleware.use] as it
    is. *)
Theorem enhanceMiddleware_custom_then_base_stack
    (middleware : Connect.Server) (metroMiddleware : Connect.Handler)
    (server : MetroServer) :
  (forall custom,
      enhanceMiddleware (Some custom) middleware metroMiddleware server
      = Connect.use middleware (custom metroMiddleware server)) /\
  enhanceMiddleware None middleware metroMiddleware server
  = Connect.use middleware metroMiddleware /\
  forall customEnhanceMiddleware req,
    let enhanced :=
      match customEnhanceMiddleware with
      | Some custom => custom metroMiddleware server
      | None => metroMiddleware
      end in
    let chain :=
      enhanceMiddleware customEnhanceMiddleware middleware metroMiddleware
        server in
    Connect.stack chain = Connect.stack middleware ++ [enhanced] /\
    Connect.handle chain req =
    match Connect.handle middleware req with
    | Some res => Some res
    | None => enhanced req
    end.
Proof.
  split; [reflexivity|]. split; [reflexivity|].
  intros custom req enhanced chain. split; [reflexivity|].
  unfold chain, enhanceMiddleware, Connect.handle, Connect.use. simpl.
  apply Connect_run_last.
Qed.

(** C7.  A run with the quiet flag set reports no
    [bundle_transform_progressed], and is otherwise the run without the
    flag: what it emits is what the loud run emits with the progress reports
    taken out, so the same [bundle_build_started] and [bundle_build_done]
    reports are there, flag or no flag.  Every report of either run carries
    the one build identifier the call took from [nextBuildID].  (The flag is
    also among the options handed to the configuration loader; the two runs
    are compared when the loader makes nothing of it.) *)
Theorem quiet_suppresses_progress_reports_only
    env projectRoot expoConfig options
    (bundles : list BundleOptions) (g : Globals) :
  loadAsync env projectRoot (setQuiet (Some true) options)
  = loadAsync env projectRoot (setQuiet None options) ->
  let loud :=
    bundleAsync env projectRoot expoConfig (setQuiet None options) bundles g in
  let hush :=
    bundleAsync env projectRoot expoConfig (setQuiet (Some true) options)
      bundles g in
  filter isProgressReport (emitted hush) = [] /\
  emitted hush = withoutProgress (emitted loud) /\
  filter isStartedReport (emitted hush) = filter isStartedReport (emitted loud) /\
  filter isDoneReport (emitted hush) = filter isDoneReport (emitted loud) /\
  Forall (eq (bundle_ (nextBuildID g))) (reportedBuildIDs (emitted hush)) /\
  Forall (eq (bundle_ (nextBuildID g))) (reportedBuildIDs (emitted loud)).
Proof.
  intros Hload loud hush.
  assert (Heq : emitted hush = withoutProgress (emitted loud)).
  { subst loud hush. rewrite !bundleAsync_run. rewrite Hload.
    destruct (importMetroFromProject env projectRoot); [|reflexivity].
    destruct (importMetroServerFromProject env projectRoot) as [defaults|];
      [|reflexivity].
    destruct (loadAsync env projectRoot (setQuiet None options)) as [config|];
      [|reflexivity].
    cbv zeta.
    destruct (runMetro env config); [|reflexivity].
    rewrite (Promise_all_buildAsync_quiet env (setQuiet None options)
               (setQuiet (Some true) options) (bundle_ (nextBuildID g))
               eq_refl defaults config bundles).
    cbn [fst snd].
    destruct (snd (Promise_all_buildAsync env (setQuiet None options) defaults
                     config (bundle_ (nextBuildID g)) bundles));
      cbn [emitted]; rewrite !withoutProgress_app; [|reflexivity].
    f_equal. f_equal. symmetry. apply filter_all.
    eapply Forall_impl; [|apply hermesLoop_events].
    intros e He. now rewrite (proj1 (proj2 (proj2 (proj2
      (hermesPhaseEvent_kind _ He))))). }
  rewrite Heq. repeat split.
  - apply withoutProgress_progress.
  - apply withoutProgress_keeps. intros [id []| | | | | | |]; simpl; congruence.
  - apply withoutProgress_keeps. intros [id []| | | | | | |]; simpl; congruence.
  - rewrite <- Heq. apply bundleAsync_reportedBuildIDs.
  - apply bundleAsync_reportedBuildIDs.
Qed.

Lemma quiet_suppresses_progress_reports_only_witness :
  loadAsync sampleEnv "/app" (setQuiet (Some true) sampleOptions)
  = loadAsync sampleEnv "/app" (setQuiet None sampleOptions) /\
  let loud :=
    bundleAsync sampleEnv "/app" sampleExpoConfig (setQuiet None sampleOptions)
      [androidRequest; iosRequest] freshGlobals in
  let hush :=
    bundleAsync sampleEnv "/app" sampleExpoConfig
      (setQuiet (Some true) sampleOptions)
      [androidRequest; iosRequest] freshGlobals in
  List.length (filter isProgressReport (emitted loud)) = 4 /\
  List.length (filter isStartedReport (emitted loud)) = 2 /\
  List.length (filter isDoneReport (emitted loud)) = 2 /\
  filter isProgressReport (emitted hush) = [] /\
  emitted hush = withoutProgress (emitted loud) /\
  filter isStartedReport (emitted hush) = filter isStartedReport (emitted loud) /\
  filter isDoneReport (emitted hush) = filter isDoneReport (emitted loud) /\
  Forall (eq (bundle_ 0)) (reportedBuildIDs (emitted hush)) /\
  Forall (eq (bundle_ 0)) (reportedBuildIDs (emitted loud)).
Proof.
  split; [reflexivity|]. cbv zeta.
  do 3 (split; [reflexivity|]).
  exact (quiet_suppresses_progress_reports_only sampleEnv "/app"
           sampleExpoConfig sampleOptions [androidRequest; iosRequest]
           freshGlobals eq_refl).
Defined.

(** C8.  [metroServer.build] is called once per request, in order, with the
    bundle options of the request; their [minify] is the [minify] of the
    request when it has one, and otherwise the negation of its [dev] flag,
    an unset [dev] counting as [false]. *)
Theorem build_minify_defaults_to_not_dev
    env projectRoot expoConfig options
    (bundles : list BundleOptions) (g : Globals) defaults config :
  importMetroFromProject env projectRoot = Ok tt ->
  importMetroServerFromProject env projectRoot = Ok defaults ->
  loadAsync env projectRoot options = Ok config ->
  runMetro env config = Ok tt ->
  let r := bundleAsync env projectRoot expoConfig options bundles g in
  buildCalls (emitted r) = List.map (bundleOptions defaults config) bundles /\
  forall bundle,
    Metro.minify (bundleOptions defaults config bundle) =
    match minify bundle with
    | Some explicit => explicit
    | None => negb (dev bundle ?? false)
    end.
Proof.
  intros H1 H2 H3 H4 r. split.
  - assert (Hloop : forall evs,
               Forall (loopEvent options (bundle_ (nextBuildID g))) evs ->
               buildCalls evs = []).
    { intros evs Hevs. apply buildCalls_none.
      eapply Forall_impl; [|exact Hevs].
      intros e He. apply (loopEvent_kind _ _ _ He). }
    destruct (bundleAsync_started env projectRoot expoConfig options bundles g
                defaults config H1 H2 H3 H4)
      as (evs & Hevs & [(e & He & _)|(inter & _ & _ & He & _)]);
      fold r in He; cbv zeta in He; rewrite He;
      rewrite !buildCalls_app, startEvents_buildCalls, (Hloop _ Hevs); simpl;
      rewrite ?app_nil_r; [reflexivity|].
    rewrite buildCalls_none; [apply app_nil_r|].
    eapply Forall_impl; [|apply hermesLoop_events].
    intros e He'. apply (hermesPhaseEvent_kind _ He').
  - intros bundle. simpl.
    destruct (minify bundle); [reflexivity|].
    destruct (dev bundle) as [[]|]; reflexivity.
Qed.

Lemma build_minify_defaults_to_not_dev_witness :
  importMetroFromProject sampleEnv "/app" = Ok tt /\
  importMetroServerFromProject sampleEnv "/app" = Ok sampleDefaults /\
  loadAsync sampleEnv "/app" sampleOptions = Ok sampleConfig /\
  runMetro sampleEnv sampleConfig = Ok tt /\
  List.map Metro.minify
    (buildCalls
       (emitted (bundleAsync sampleEnv "/app" sampleExpoConfig sampleOptions
                   [androidRequest; iosRequest] freshGlobals)))
  = [true; false].
Proof.
  repeat (split; [reflexivity|]).
  rewrite (proj1 (build_minify_defaults_to_not_dev sampleEnv "/app"
                    sampleExpoConfig sampleOptions
                    [androidRequest; iosRequest] freshGlobals
                    sampleDefaults sampleConfig
                    eq_refl eq_refl eq_refl eq_refl)).
  reflexivity.
Defined.

(** C9.  [attachInspectorProxy] binds the proxy to the server through at
    most one method: [addWebSocketListener] when the proxy has it, whether
    or not it has [createWebSocketListeners] too; [createWebSocketListeners]
    when it has only that; none when it has neither.  In every case
    [processRequest] is added to the middleware and the proxy is
    returned. *)
Theorem attachInspectorProxy_binds_by_feature_detection
    (importInspectorProxyServerFromProject :
       string -> Result (string -> InspectorProxy))
    (projectRoot : string) (server : HttpServer) (middleware : Connect.Server)
    (InspectorProxy_new : string -> InspectorProxy) :
  importInspectorProxyServerFromProject projectRoot = Ok InspectorProxy_new ->
  let proxy := InspectorProxy_new projectRoot in
  exists attached,
    attachInspectorProxy importInspectorProxyServerFromProject projectRoot
      server middleware = Ok attached /\
    inspectorProxy attached = proxy /\
    middlewareAfter attached = Connect.use middleware (processRequest proxy) /\
    (hasProperty "addWebSocketListener" proxy = true ->
     bindings attached = [addWebSocketListener server]) /\
    (hasProperty "addWebSocketListener" proxy = false ->
     hasProperty "createWebSocketListeners" proxy = true ->
     bindings attached = [createWebSocketListeners server]) /\
    (hasProperty "addWebSocketListener" proxy = false ->
     hasProperty "createWebSocketListeners" proxy = false ->
     bindings attached = []).
Proof.
  intros Himport proxy. unfold attachInspectorProxy. rewrite Himport.
  fold proxy. eexists. split; [reflexivity|]. cbn [inspectorProxy
    middlewareAfter bindings].
  split; [reflexivity|]. split; [reflexivity|].
  repeat split.
  - intros ->. reflexivity.
  - intros -> ->. reflexivity.
  - intros -> ->. reflexivity.
Qed.

Lemma attachInspectorProxy_binds_by_feature_detection_witness :
  hasProperty "addWebSocketListener" (bothBindingsProxy "/app") = true /\
  hasProperty "createWebSocketListeners" (bothBindingsProxy "/app") = true /\
  exists attached,
    attachInspectorProxy (fun _ => Ok bothBindingsProxy) "/app"
      sampleServer sampleMiddleware = Ok attached /\
    bindings attached = [addWebSocketListener sampleServer] /\
    Connect.stack (middlewareAfter attached) = [notFound; notFound].
Proof.
  split; [reflexivity|]. split; [reflexivity|].
  destruct (attachInspectorProxy_binds_by_feature_detection
              (fun _ => Ok bothBindingsProxy) "/app" sampleServer
              sampleMiddleware bothBindingsProxy eq_refl)
    as (attached & Hrun & _ & Hmw & Hadd & _).
  exists attached. split; [exact Hrun|]. split; [exact (Hadd eq_refl)|].
  rewrite Hmw. reflexivity.
Defined.

(** A proxy with neither method: nothing is bound, [processRequest] is
    added all the same, and the call returns. *)
Example attachInspectorProxy_no_binding :
  attachInspectorProxy (fun _ => Ok noBindingProxy) "/app"
    sampleServer sampleMiddleware
  = Ok {| bindings := [];
          middlewareAfter := {| Connect.stack := [notFound; notFound] |};
          inspectorProxy := noBindingProxy "/app" |}.
Proof. reflexivity. Qed.

(** C10.  For every request, the [bundle_build_started] report gives
    [minify] as [bundle.minify ?? false], while [metroServer.build] is
    called with [minify] as [bundle.minify ?? !bundle.dev].  The two differ
    exactly for a request with [minify] unset and [dev] false or unset:
    there the report says [false] and the build minifies. *)
Theorem started_report_minify_differs_from_build
    env defaults config buildID (bundle : BundleOptions) :
  fst (buildAsync env defaults config buildID bundle)
  = [ReporterUpdate buildID
       (bundle_build_started (bundleDetailsOf defaults config bundle));
     MetroBuild (bundleOptions defaults config bundle)] /\
  detailsMinify (bundleDetailsOf defaults config bundle)
  = minify bundle ?? false /\
  Metro.minify (bundleOptions defaults config bundle)
  = minify bundle ?? negb (dev bundle ?? false) /\
  (detailsMinify (bundleDetailsOf defaults config bundle)
   <> Metro.minify (bundleOptions defaults config bundle)
   <-> minify bundle = None /\ dev bundle <> Some true) /\
  (minify bundle = None ->
   dev bundle <> Some true ->
   detailsMinify (bundleDetailsOf defaults config bundle) = false /\
   Metro.minify (bundleOptions defaults config bundle) = true).
Proof.
  split; [reflexivity|]. split; [reflexivity|]. simpl.
  destruct (minify bundle) as [explicit|]; simpl.
  - split; [reflexivity|]. split.
    + split; [intros H; congruence|intros [H _]; discriminate H].
    + intros H. discriminate H.
  - destruct (dev bundle) as [[]|]; simpl;
      (split; [reflexivity|]); split.
    + split; [intros H; congruence|intros [_ H]; congruence].
    + intros _ H. congruence.
    + split; [intros _; split; [reflexivity|discriminate]|discriminate].
    + auto.
    + split; [intros _; split; [reflexivity|discriminate]|discriminate].
    + auto.
Qed.

Lemma started_report_minify_differs_from_build_witness :
  minify androidRequest = None /\
  dev androidRequest <> Some true /\
  fst (buildAsync sampleEnv sampleDefaults sampleConfig (bundle_ 0)
         androidRequest)
  = [ReporterUpdate (bundle_ 0)
       (bundle_build_started
          {| detailsBundleType := "bundle";
             detailsPlatform := android;
             detailsEntryFile := "index.js";
             detailsDev := false;
             detailsMinify := false |});
     MetroBuild (bundleOptions sampleDefaults sampleConfig androidRequest)] /\
  Metro.minify (bundleOptions sampleDefaults sampleConfig androidRequest)
  = true /\
  detailsMinify (bundleDetailsOf sampleDefaults sampleConfig minifiedRequest)
  = true /\
  Metro.minify (bundleOptions sampleDefaults sampleConfig minifiedRequest)
  = true.
Proof.
  assert (Hd : dev androidRequest <> Some true) by discriminate.
  destruct (started_report_minify_differs_from_build sampleEnv sampleDefaults
              sampleConfig (bundle_ 0) androidRequest)
    as (Hev & _ & _ & _ & Hcase).
  destruct (Hcase eq_refl Hd) as [_ Hmin].
  destruct (started_report_minify_differs_from_build sampleEnv sampleDefaults
              sampleConfig (bundle_ 0) minifiedRequest)
    as (_ & Hreport & Hbuild & _ & _).
  split; [reflexivity|]. split; [exact Hd|]. split; [exact Hev|].
  split; [exact Hmin|]. split; [exact Hreport|exact Hbuild].
Defined.

(** ** Further properties of bundleAsync *)

Section SequentialPhase.

Variable env : Environment.
Variable projectRoot : string.
Variable expoConfig : ExpoConfig.

(** A loop that returns has done, request by request, what
    [sequentialEventsFor] lists, and returns one output per request. *)
Lemma hermesLoop_trace (rest : list BundleOptions) :
  forall done todo acc g outs,
    outcome (hermesLoop env projectRoot expoConfig rest (List.length done)
               (done ++ todo) acc g) = Ok outs ->
    exists outs',
      outs = acc ++ outs' /\
      List.length outs' = List.length rest /\
      emitted (hermesLoop env projectRoot expoConfig rest (List.length done)
                 (done ++ todo) acc g)
      = sequentialEvents env projectRoot expoConfig rest outs'.
Proof.
  induction rest as [|bundle rest IH]; intros done todo acc g outs H.
  - simpl in H. inversion H; subst. exists []. rewrite app_nil_r. auto.
  - rewrite hermesLoop_cons in H |- *.
    destruct todo as [|intermediate todo].
    { rewrite (proj2 (nth_error_None _ _)) in H
        by (rewrite app_nil_r; apply le_n).
      discriminate. }
    rewrite nth_error_app2, Nat.sub_diag in H |- * by apply le_n.
    cbn [nth_error] in H |- *. cbv zeta in H |- *.
    rewrite (maybeAddHermesBundleAsync_run env projectRoot expoConfig
               bundle intermediate g) in H |- *.
    cbv zeta in H |- *.
    replace (done ++ intermediate :: todo)
      with ((done ++ [intermediate]) ++ todo) in H |- *
      by (rewrite <- app_assoc; reflexivity).
    replace (S (List.length done))
      with (List.length (done ++ [intermediate])) in H |- *
      by (rewrite length_app; simpl; lia).
    destruct (engineMismatch env projectRoot (platform bundle)
                (isEnableHermesManaged env expoConfig (platform bundle)));
      [discriminate|].
    destruct (isEnableHermesManaged env expoConfig (platform bundle)) eqn:Hm.
    + destruct (buildHermesBundleAsync env projectRoot (code intermediate)
                  (map intermediate) (minify bundle)) as [h|e];
        cbn [outcome emitted globals mapResult isOk] in H |- *;
        [|discriminate].
      destruct (IH _ _ _ _ _ H) as (outs' & -> & Hlen & Hev).
      exists (withHermes intermediate h :: outs').
      rewrite <- app_assoc. split; [reflexivity|].
      split; [simpl; now f_equal|].
      rewrite Hev. cbn [sequentialEvents]. unfold sequentialEventsFor.
      rewrite Hm. reflexivity.
    + cbn [outcome emitted globals] in H |- *.
      destruct (IH _ _ _ _ _ H) as (outs' & -> & Hlen & Hev).
      exists (intermediate :: outs').
      rewrite <- app_assoc. split; [reflexivity|].
      split; [simpl; now f_equal|].
      rewrite Hev. cbn [sequentialEvents]. unfold sequentialEventsFor.
      rewrite Hm. reflexivity.
Qed.

(** A loop that throws, on intermediate outputs that are there for every
    request, throws what the check or the compiler raised for one of its
    requests. *)
Lemma hermesLoop_throws (rest : list BundleOptions) :
  forall done todo acc g e,
    List.length todo = List.length rest ->
    outcome (hermesLoop env projectRoot expoConfig rest (List.length done)
               (done ++ todo) acc g) = Throw e ->
    exists bundle,
      In bundle rest /\ hermesRaises env projectRoot expoConfig bundle e.
Proof.
  induction rest as [|bundle rest IH]; intros done todo acc g e Hlen H.
  - discriminate.
  - destruct todo as [|intermediate todo]; [discriminate|].
    rewrite hermesLoop_cons in H.
    rewrite nth_error_app2, Nat.sub_diag in H by apply le_n.
    cbn [nth_error] in H. cbv zeta in H.
    rewrite (maybeAddHermesBundleAsync_run env projectRoot expoConfig
               bundle intermediate g) in H.
    cbv zeta in H.
    replace (done ++ intermediate :: todo)
      with ((done ++ [intermediate]) ++ todo) in H
      by (rewrite <- app_assoc; reflexivity).
    replace (S (List.length done))
      with (List.length (done ++ [intermediate])) in H
      by (rewrite length_app; simpl; lia).
    assert (Hrest : forall acc' g',
               outcome (hermesLoop env projectRoot expoConfig rest
                          (List.length (done ++ [intermediate]))
                          ((done ++ [intermediate]) ++ todo) acc' g')
               = Throw e ->
               exists bundle0,
                 In bundle0 (bundle :: rest) /\
                 hermesRaises env projectRoot expoConfig bundle0 e).
    { intros acc' g' H'.
      destruct (IH _ _ _ _ _ (eq_add_S _ _ Hlen) H') as (b & Hin & Hb).
      exists b. split; [right; exact Hin|exact Hb]. }
    destruct (engineMismatch env projectRoot (platform bundle)
                (isEnableHermesManaged env expoConfig (platform bundle)))
      eqn:Hmis.
    { cbn [outcome] in H. inversion H; subst.
      exists bundle. split; [left; reflexivity|]. left. auto. }
    destruct (isEnableHermesManaged env expoConfig (platform bundle)) eqn:Hm.
    + destruct (buildHermesBundleAsync env projectRoot (code intermediate)
                  (map intermediate) (minify bundle)) as [h|e'] eqn:Hh;
        cbn [outcome emitted globals mapResult isOk] in H.
      * eapply Hrest. exact H.
      * inversion H; subst. exists bundle. split; [left; reflexivity|].
        right. unfold hermesRaises. rewrite Hm. split; [reflexivity|].
        exists (code intermediate), (map intermediate). exact Hh.
    + cbn [outcome emitted globals] in H. eapply Hrest. exact H.
Qed.

End SequentialPhase.

Section BuildPhaseErrors.

Variable env : Environment.
Variable options : MetroDevServerOptions.
Variable buildID : BuildID.

Lemma resume_throws (t : Task) (o : Metro.BundleOptions) (evs : list Event)
    (e : Error) :
  taskFor env o t ->
  resume env options buildID t = (evs, Throw e) ->
  buildRaises env o e /\ evs = [].
Proof.
  destruct t as [o' [|[transformed total] callbacks]|o' c m|out]; simpl;
    intros Ht H; try discriminate.
  - subst o'. destruct (settles (build env o)) as [[c m]|e'] eqn:Hb;
      inversion H; subst. split; [left; auto|reflexivity].
  - destruct Ht as [-> _].
    destruct (getAssets env o) as [a|e'] eqn:Ha; inversion H; subst.
    split; [right; auto|reflexivity].
Qed.

Lemma resumeNth_throws (ts : list Task) :
  forall k os evs e,
    Forall2 (taskFor env) os ts ->
    resumeNth env options buildID k ts = (evs, Throw e) ->
    (exists o, In o os /\ buildRaises env o e) /\ evs = [].
Proof.
  induction ts as [|t ts IH]; intros k os evs e Hos H; simpl in H;
    [discriminate|].
  inversion Hos as [|o ? os' ? Ht Hos']; subst.
  assert (Htail : forall k',
             resumeNth env options buildID k' ts = (evs, Throw e) ->
             (exists o0, In o0 (o :: os') /\ buildRaises env o0 e) /\
             evs = []).
  { intros k' H'. destruct (IH _ _ _ _ Hos' H') as [(o0 & Hin & Ho0) Hev].
    split; [|exact Hev]. exists o0. split; [right; exact Hin|exact Ho0]. }
  destruct (pending t).
  - destruct k as [|k].
    + destruct (resume env options buildID t) as [evs0 [t'|e']] eqn:Hr;
        simpl in H; inversion H; subst.
      destruct (resume_throws _ _ _ _ Ht Hr) as [Ho Hev].
      split; [|exact Hev]. exists o. split; [left; reflexivity|exact Ho].
    + destruct (resumeNth env options buildID k ts) as [evs0 [ts0|e']] eqn:Hr;
        simpl in H; inversion H; subst. apply (Htail _ Hr).
  - destruct (resumeNth env options buildID k ts) as [evs0 [ts0|e']] eqn:Hr;
      simpl in H; inversion H; subst. apply (Htail _ Hr).
Qed.

(** The loop throws what the build of one of its requests raised, and has
    at most one done report for each promise that was pending. *)
Lemma eventLoop_throws (fuel : nat) :
  forall turn ts os evs e,
    Forall2 (taskFor env) os ts ->
    eventLoop env options buildID fuel turn ts = (evs, Throw e) ->
    (exists o, In o os /\ buildRaises env o e) /\
    List.length (filter isDoneReport evs) <= pendingCount ts.
Proof.
  induction fuel as [|fuel IH]; intros turn ts os evs e Hos H; simpl in H;
    [discriminate|].
  destruct (pendingCount ts) as [|n] eqn:Hn; [discriminate|].
  destruct (resumeNth env options buildID (schedule env turn mod S n) ts)
    as [evs0 [ts'|e']] eqn:Hr.
  - destruct (eventLoop env options buildID fuel (S turn) ts')
      as [evs1 r1] eqn:Hl.
    inversion H; subst; clear H.
    assert (Hk : schedule env turn mod S n < pendingCount ts).
    { rewrite Hn. apply Nat.mod_upper_bound. discriminate. }
    destruct (resumeNth_progress env options buildID ts _ _ _ Hk Hr)
      as (_ & Hinv & Hd).
    destruct (IH _ _ os _ _ (Hinv _ Hos) Hl) as [Hraise Hcount].
    split; [exact Hraise|].
    rewrite filter_app, length_app. lia.
  - inversion H; subst; clear H.
    destruct (resumeNth_throws _ _ _ _ _ Hos Hr) as [Hraise ->].
    split; [exact Hraise|]. simpl. lia.
Qed.

End BuildPhaseErrors.

Lemma Forall2_In_left {A B} (R : A -> B -> Prop) (l : list A) (l' : list B)
    (a : A) :
  Forall2 R l l' -> In a l -> exists b, In b l' /\ R a b.
Proof.
  induction 1 as [|x y l l' Hxy _ IH]; intros Hin; [destruct Hin|].
  destruct Hin as [->|Hin].
  - exists y. split; [left; reflexivity|exact Hxy].
  - destruct (IH Hin) as (b & Hb & Hr). exists b. split; [right|]; auto.
Qed.

Section Phases.

Variable env : Environment.
Variable projectRoot : string.
Variable expoConfig : ExpoConfig.
Variable options : MetroDevServerOptions.

(** How [Promise.all] settles: fulfilled with the outputs built for the
    requests, or rejected with what the build of one request raised. *)
Lemma Promise_all_buildAsync_settles defaults config buildID
    (bundles : list BundleOptions) :
  exists evs,
    fst (Promise_all_buildAsync env options defaults config buildID bundles)
    = startEvents buildID defaults config bundles ++ evs /\
    Forall (loopEvent options buildID) evs /\
    List.length (filter isDoneReport evs) <= List.length bundles /\
    match snd (Promise_all_buildAsync env options defaults config buildID
                 bundles) with
    | Ok intermediateOutputs =>
        Forall2 (fun bundle =>
                   builtFrom env (bundleOptions defaults config bundle))
          bundles intermediateOutputs /\
        List.length (filter isDoneReport evs) = List.length bundles
    | Throw e =>
        exists bundle,
          In bundle bundles /\
          buildRaises env (bundleOptions defaults config bundle) e
    end.
Proof.
  rewrite Promise_all_buildAsync_unfold. cbv zeta. cbn [fst snd].
  set (ts := List.map snd
               (List.map (buildAsync env defaults config buildID) bundles)).
  assert (Hts : Forall2 (taskFor env)
                  (List.map (bundleOptions defaults config) bundles) ts).
  { subst ts. induction bundles as [|b bs IH]; simpl; constructor; auto.
    reflexivity. }
  assert (Hp : pendingCount ts = List.length bundles).
  { clear Hts. subst ts. unfold pendingCount.
    induction bundles as [|b bs IH]; [reflexivity|].
    cbn. now f_equal. }
  generalize (eventLoop_events env options buildID (turnsLeft ts) 0 ts).
  destruct (eventLoop env options buildID (turnsLeft ts) 0 ts)
    as [evs [inter|e]] eqn:Hl; cbn [fst snd]; intros Hevs;
    exists evs; (split; [reflexivity|]); (split; [exact Hevs|]).
  - destruct (eventLoop_fulfils env options buildID _ _ _ _ _ _
                (le_n _) Hts Hl) as [Hb Hd].
    rewrite Hp in Hd. split; [rewrite Hd; apply le_n|].
    split; [apply Forall2_map_left; exact Hb|exact Hd].
  - destruct (eventLoop_throws env options buildID _ _ _ _ _ _ Hts Hl)
      as [(o & Hin & Ho) Hd].
    rewrite Hp in Hd. split; [exact Hd|].
    apply in_map_iff in Hin. destruct Hin as (bundle & <- & Hin).
    exists bundle. auto.
Qed.

(** A run that has a Metro server, by how [Promise.all] settles. *)
Lemma bundleAsync_phases (bundles : list BundleOptions) (g : Globals)
    defaults config :
  importMetroFromProject env projectRoot = Ok tt ->
  importMetroServerFromProject env projectRoot = Ok defaults ->
  loadAsync env projectRoot options = Ok config ->
  runMetro env config = Ok tt ->
  let g' := {| nextBuildID := S (nextBuildID g) |} in
  let p := Promise_all_buildAsync env options defaults config
             (bundle_ (nextBuildID g)) bundles in
  bundleAsync env projectRoot expoConfig options bundles g =
  match snd p with
  | Throw e =>
      {| emitted := fst p ++ [MetroEnd]; globals := g'; outcome := Throw e |}
  | Ok intermediateOutputs =>
      let h := hermesLoop env projectRoot expoConfig bundles 0
                 intermediateOutputs [] g' in
      {| emitted := (fst p ++ emitted h) ++ [MetroEnd];
         globals := globals h;
         outcome := outcome h |}
  end.
Proof.
  intros H1 H2 H3 H4 g' p.
  rewrite bundleAsync_run, H1, H2, H3. cbv zeta. rewrite H4. reflexivity.
Qed.

End Phases.

Lemma loopEvent_not_started options buildID (e : Event) :
  loopEvent options buildID e -> isStartedReport e = false.
Proof.
  destruct e as [id [d|a b|]| | | | | | |]; simpl; intros H;
    try contradiction; reflexivity.
Qed.

Lemma buildEvent_not_hermesPhase (e : Event) :
  isBuildEvent e = true -> isHermesPhaseEvent e = false.
Proof. destruct e; simpl; congruence. Qed.

Lemma hermesPhaseEvent_not_started (e : Event) :
  isHermesPhaseEvent e = true -> isStartedReport e = false.
Proof. destruct e; simpl; congruence. Qed.

Lemma hermesPhaseEvent_not_done (e : Event) :
  isHermesPhaseEvent e = true -> isDoneReport e = false.
Proof. destruct e; simpl; congruence. Qed.

(** The counter after a call: one more once the configuration is loaded,
    whatever the call does after that. *)
Lemma bundleAsync_globals env projectRoot expoConfig options bundles g :
  nextBuildID
    (globals (bundleAsync env projectRoot expoConfig options bundles g))
  = match importMetroFromProject env projectRoot,
          importMetroServerFromProject env projectRoot,
          loadAsync env projectRoot options with
    | Ok _, Ok _, Ok _ => S (nextBuildID g)
    | _, _, _ => nextBuildID g
    end.
Proof.
  rewrite bundleAsync_run.
  destruct (importMetroFromProject env projectRoot); [|reflexivity].
  destruct (importMetroServerFromProject env projectRoot) as [defaults|];
    [|reflexivity].
  destruct (loadAsync env projectRoot options) as [config|]; [|reflexivity].
  cbv zeta. destruct (runMetro env config); [|reflexivity].
  destruct (snd (Promise_all_buildAsync env options defaults config
                   (bundle_ (nextBuildID g)) bundles)); [|reflexivity].
  cbn [globals]. rewrite hermesLoop_globals. reflexivity.
Qed.

(** X1.  When [metro.runMetro] rejects, [bundleAsync] rejects with the same
    error and has called nothing else: the call sits before the [try], so
    [metroServer.end] is not called and no report is made; the build
    identifier of the call is used up all the same. *)
Theorem bundleAsync_runMetro_rejects
    env projectRoot expoConfig options
    (bundles : list BundleOptions) (g : Globals) defaults config (e : Error) :
  importMetroFromProject env projectRoot = Ok tt ->
  importMetroServerFromProject env projectRoot = Ok defaults ->
  loadAsync env projectRoot options = Ok config ->
  runMetro env config = Throw e ->
  let r := bundleAsync env projectRoot expoConfig options bundles g in
  outcome r = Throw e /\
  emitted r = [] /\
  nextBuildID (globals r) = S (nextBuildID g).
Proof.
  intros H1 H2 H3 H4. cbv zeta.
  rewrite bundleAsync_run, H1, H2, H3. cbv zeta. rewrite H4.
  repeat split.
Qed.

Lemma bundleAsync_runMetro_rejects_witness :
  importMetroFromProject noServerEnv "/app" = Ok tt /\
  importMetroServerFromProject noServerEnv "/app" = Ok sampleDefaults /\
  loadAsync noServerEnv "/app" sampleOptions = Ok sampleConfig /\
  runMetro noServerEnv sampleConfig = Throw (ExternalError "EADDRINUSE") /\
  let r := bundleAsync noServerEnv "/app" sampleExpoConfig sampleOptions
             [androidRequest; iosRequest] freshGlobals in
  outcome r = Throw (ExternalError "EADDRINUSE") /\
  emitted r = [] /\
  nextBuildID (globals r) = 1.
Proof.
  do 4 (split; [reflexivity|]).
  exact (bundleAsync_runMetro_rejects noServerEnv "/app" sampleExpoConfig
           sampleOptions [androidRequest; iosRequest] freshGlobals
           sampleDefaults sampleConfig (ExternalError "EADDRINUSE")
           eq_refl eq_refl eq_refl eq_refl).
Defined.

(** X2.  [nextBuildID] never goes down and moves by at most one per call:
    it is one more after a call whose configuration loaded (whether the
    call then returns, or a build, the engine check or the Hermes compiler
    fails), and unchanged after a call that threw before that. *)
Theorem nextBuildID_advances_once_config_loads
    env projectRoot expoConfig options
    (bundles : list BundleOptions) (g : Globals) :
  let r := bundleAsync env projectRoot expoConfig options bundles g in
  nextBuildID g <= nextBuildID (globals r) <= S (nextBuildID g) /\
  nextBuildID (globals r)
  = match importMetroFromProject env projectRoot,
          importMetroServerFromProject env projectRoot,
          loadAsync env projectRoot options with
    | Ok _, Ok _, Ok _ => S (nextBuildID g)
    | _, _, _ => nextBuildID g
    end.
Proof.
  cbv zeta. rewrite bundleAsync_globals.
  split; [|reflexivity].
  destruct (importMetroFromProject env projectRoot);
    destruct (importMetroServerFromProject env projectRoot);
    destruct (loadAsync env projectRoot options); lia.
Qed.

(** X3.  Two calls of [bundleAsync], one after the other, never report
    under the same build identifier, whatever the projects, options and
    requests of the two calls. *)
Theorem successive_calls_report_distinct_buildIDs
    env1 projectRoot1 expoConfig1 options1 (bundles1 : list BundleOptions)
    env2 projectRoot2 expoConfig2 options2 (bundles2 : list BundleOptions)
    (g : Globals) (id1 id2 : BuildID) :
  let r1 := bundleAsync env1 projectRoot1 expoConfig1 options1 bundles1 g in
  let r2 := bundleAsync env2 projectRoot2 expoConfig2 options2 bundles2
              (globals r1) in
  In id1 (reportedBuildIDs (emitted r1)) ->
  In id2 (reportedBuildIDs (emitted r2)) ->
  id1 <> id2.
Proof.
  cbv zeta. intros Hin1 Hin2.
  pose proof (bundleAsync_reportedBuildIDs env1 projectRoot1 expoConfig1
                options1 bundles1 g) as Hall1.
  pose proof (bundleAsync_reportedBuildIDs env2 projectRoot2 expoConfig2
                options2 bundles2
                (globals (bundleAsync env1 projectRoot1 expoConfig1 options1
                            bundles1 g))) as Hall2.
  rewrite Forall_forall in Hall1, Hall2.
  rewrite <- (Hall1 _ Hin1), <- (Hall2 _ Hin2).
  assert (Hnext : nextBuildID
                    (globals (bundleAsync env1 projectRoot1 expoConfig1
                                options1 bundles1 g))
                  = S (nextBuildID g)).
  { rewrite bundleAsync_globals.
    destruct (bundleAsync_cases env1 projectRoot1 expoConfig1 options1
                bundles1 g) as [[Hnil _]|(d & c & H1 & H2 & H3 & _)].
    - rewrite Hnil in Hin1. destruct Hin1.
    - rewrite H1, H2, H3. reflexivity. }
  rewrite Hnext. intros Heq. inversion Heq. lia.
Qed.

Lemma successive_calls_report_distinct_buildIDs_witness :
  let r1 := bundleAsync sampleEnv "/app" sampleExpoConfig sampleOptions
              [androidRequest] freshGlobals in
  let r2 := bundleAsync failingEnv "/app" sampleExpoConfig sampleOptions
              [iosRequest] (globals r1) in
  In (bundle_ 0) (reportedBuildIDs (emitted r1)) /\
  In (bundle_ 1) (reportedBuildIDs (emitted r2)) /\
  bundle_ 0 <> bundle_ 1.
Proof.
  cbv zeta.
  assert (H1 : In (bundle_ 0)
                 (reportedBuildIDs
                    (emitted (bundleAsync sampleEnv "/app" sampleExpoConfig
                                sampleOptions [androidRequest] freshGlobals))))
    by (vm_compute; left; reflexivity).
  assert (H2 : In (bundle_ 1)
                 (reportedBuildIDs
                    (emitted
                       (bundleAsync failingEnv "/app" sampleExpoConfig
                          sampleOptions [iosRequest]
                          (globals
                             (bundleAsync sampleEnv "/app" sampleExpoConfig
                                sampleOptions [androidRequest]
                                freshGlobals))))))
    by (vm_compute; left; reflexivity).
  split; [exact H1|]. split; [exact H2|].
  exact (successive_calls_report_distinct_buildIDs
           sampleEnv "/app" sampleExpoConfig sampleOptions [androidRequest]
           failingEnv "/app" sampleExpoConfig sampleOptions [iosRequest]
           freshGlobals (bundle_ 0) (bundle_ 1) H1 H2).
Defined.

(** X4.  When Metro rejects the build of one request, or the listing of its
    assets, the batch is aborted before the sequential phase: [bundleAsync]
    throws what the build of one of the requests raised (the first to fail
    as the builds complete), and no engine check, log line or Hermes
    compilation takes place, not even for the requests that built. *)
Theorem failing_build_aborts_before_sequential_phase
    env projectRoot expoConfig options
    (bundles : list BundleOptions) (g : Globals) defaults config
    (bundle : BundleOptions) (e0 : Error) :
  importMetroFromProject env projectRoot = Ok tt ->
  importMetroServerFromProject env projectRoot = Ok defaults ->
  loadAsync env projectRoot options = Ok config ->
  runMetro env config = Ok tt ->
  In bundle bundles ->
  buildRaises env (bundleOptions defaults config bundle) e0 ->
  let r := bundleAsync env projectRoot expoConfig options bundles g in
  (exists e failed,
      outcome r = Throw e /\
      In failed bundles /\
      buildRaises env (bundleOptions defaults config failed) e) /\
  filter isHermesPhaseEvent (emitted r) = [].
Proof.
  intros H1 H2 H3 H4 Hin Hraise. cbv zeta.
  rewrite (bundleAsync_phases env projectRoot expoConfig options bundles g
             defaults config H1 H2 H3 H4). cbv zeta.
  destruct (Promise_all_buildAsync_settles env options defaults config
              (bundle_ (nextBuildID g)) bundles)
    as (evs & Hfst & Hevs & _ & Hsnd).
  rewrite Hfst.
  destruct (snd (Promise_all_buildAsync env options defaults config
                   (bundle_ (nextBuildID g)) bundles)) as [inter|e].
  - exfalso. destruct Hsnd as [Hb _].
    destruct (Forall2_In_left _ _ _ _ Hb Hin) as (out & _ & Hs & Ha & _).
    destruct Hraise as [Hr|Hr]; congruence.
  - destruct Hsnd as (failed & Hf & Hr). cbn [outcome emitted]. split.
    + exists e, failed. auto.
    + rewrite !filter_app.
      rewrite (startEvents_filter _ _ _ _ _ buildEvent_not_hermesPhase).
      rewrite (loopEvents_filter _ _ _ _ buildEvent_not_hermesPhase Hevs).
      reflexivity.
Qed.

Lemma failing_build_aborts_before_sequential_phase_witness :
  importMetroFromProject failingEnv "/app" = Ok tt /\
  importMetroServerFromProject failingEnv "/app" = Ok sampleDefaults /\
  loadAsync failingEnv "/app" sampleOptions = Ok sampleConfig /\
  runMetro failingEnv sampleConfig = Ok tt /\
  In iosRequest [androidRequest; iosRequest] /\
  buildRaises failingEnv (bundleOptions sampleDefaults sampleConfig iosRequest)
    (ExternalError "SyntaxError in App.js") /\
  let r := bundleAsync failingEnv "/app" sampleExpoConfig sampleOptions
             [androidRequest; iosRequest] freshGlobals in
  (exists e failed,
      outcome r = Throw e /\
      In failed [androidRequest; iosRequest] /\
      buildRaises failingEnv (bundleOptions sampleDefaults sampleConfig failed)
        e) /\
  filter isHermesPhaseEvent (emitted r) = [].
Proof.
  assert (Hin : In iosRequest [androidRequest; iosRequest])
    by (right; left; reflexivity).
  assert (Hraise : buildRaises failingEnv
                     (bundleOptions sampleDefaults sampleConfig iosRequest)
                     (ExternalError "SyntaxError in App.js"))
    by (left; reflexivity).
  do 4 (split; [reflexivity|]). split; [exact Hin|]. split; [exact Hraise|].
  exact (failing_build_aborts_before_sequential_phase failingEnv "/app"
           sampleExpoConfig sampleOptions [androidRequest; iosRequest]
           freshGlobals sampleDefaults sampleConfig iosRequest
           (ExternalError "SyntaxError in App.js")
           eq_refl eq_refl eq_refl eq_refl Hin Hraise).
Defined.

(** X5.  [bundleAsync] throws nothing of its own and translates no error:
    what it throws is what one of the imports, the configuration loader or
    [runMetro] raised, or what was raised for one of the requests: by its
    Metro build, by the listing of its assets, by the engine check or by
    the Hermes compiler.  In particular the loop never reads an
    intermediate output that is not there. *)
Theorem bundleAsync_throws_only_what_was_raised
    env projectRoot expoConfig options
    (bundles : list BundleOptions) (g : Globals) (e : Error) :
  outcome (bundleAsync env projectRoot expoConfig options bundles g)
  = Throw e ->
  importMetroFromProject env projectRoot = Throw e \/
  importMetroServerFromProject env projectRoot = Throw e \/
  loadAsync env projectRoot options = Throw e \/
  (exists config,
      loadAsync env projectRoot options = Ok config /\
      runMetro env config = Throw e) \/
  (exists defaults config bundle,
      importMetroServerFromProject env projectRoot = Ok defaults /\
      loadAsync env projectRoot options = Ok config /\
      In bundle bundles /\
      (buildRaises env (bundleOptions defaults config bundle) e \/
       hermesRaises env projectRoot expoConfig bundle e)).
Proof.
  intros H.
  destruct (importMetroFromProject env projectRoot) as [[]|e1] eqn:H1;
    [|rewrite bundleAsync_run, H1 in H; inversion H; auto].
  destruct (importMetroServerFromProject env projectRoot)
    as [defaults|e2] eqn:H2;
    [|rewrite bundleAsync_run, H1, H2 in H; inversion H; auto].
  destruct (loadAsync env projectRoot options) as [config|e3] eqn:H3;
    [|rewrite bundleAsync_run, H1, H2, H3 in H; inversion H; auto].
  destruct (runMetro env config) as [[]|e4] eqn:H4.
  2:{ rewrite bundleAsync_run, H1, H2, H3 in H. cbv zeta in H.
      rewrite H4 in H. inversion H; subst.
      right; right; right; left. exists config. auto. }
  do 4 right. exists defaults, config.
  rewrite (bundleAsync_phases env projectRoot expoConfig options bundles g
             defaults config H1 H2 H3 H4) in H. cbv zeta in H.
  destruct (Promise_all_buildAsync_settles env options defaults config
              (bundle_ (nextBuildID g)) bundles)
    as (evs & _ & _ & _ & Hsnd).
  destruct (snd (Promise_all_buildAsync env options defaults config
                   (bundle_ (nextBuildID g)) bundles)) as [inter|e'].
  - destruct Hsnd as [Hb _]. cbn [outcome] in H.
    destruct (hermesLoop_throws env projectRoot expoConfig bundles [] inter []
                _ e (eq_sym (Forall2_length Hb)) H) as (bundle & Hin & Hr).
    exists bundle. auto.
  - cbn [outcome] in H. inversion H; subst.
    destruct Hsnd as (bundle & Hin & Hr). exists bundle. auto.
Qed.

Lemma bundleAsync_throws_only_what_was_raised_witness :
  outcome (bundleAsync hermesFailsEnv "/app" sampleExpoConfig sampleOptions
             [iosRequest; androidRequest] freshGlobals)
  = Throw (ExternalError "hermesc exited with code 2") /\
  exists defaults config bundle,
    In bundle [iosRequest; androidRequest] /\
    (buildRaises hermesFailsEnv (bundleOptions defaults config bundle)
       (ExternalError "hermesc exited with code 2") \/
     hermesRaises hermesFailsEnv "/app" sampleExpoConfig bundle
       (ExternalError "hermesc exited with code 2")).
Proof.
  split; [vm_compute; reflexivity|].
  destruct (bundleAsync_throws_only_what_was_raised hermesFailsEnv "/app"
              sampleExpoConfig sampleOptions [iosRequest; androidRequest]
              freshGlobals (ExternalError "hermesc exited with code 2")
              eq_refl)
    as [H|[H|[H|[(c & _ & H)|(d & c & b & _ & _ & Hin & Hr)]]]];
    try discriminate H.
  exists d, c, b. auto.
Defined.

(** X6.  With no request at all, a call that gets its Metro server returns
    the empty array, having done nothing with the server but close it; the
    build identifier of the call is used up. *)
Theorem bundleAsync_no_requests
    env projectRoot expoConfig options (g : Globals) defaults config :
  importMetroFromProject env projectRoot = Ok tt ->
  importMetroServerFromProject env projectRoot = Ok defaults ->
  loadAsync env projectRoot options = Ok config ->
  runMetro env config = Ok tt ->
  bundleAsync env projectRoot expoConfig options [] g
  = {| emitted := [MetroEnd];
       globals := {| nextBuildID := S (nextBuildID g) |};
       outcome := Ok [] |}.
Proof.
  intros H1 H2 H3 H4.
  rewrite (bundleAsync_phases env projectRoot expoConfig options [] g
             defaults config H1 H2 H3 H4).
  reflexivity.
Qed.

Lemma bundleAsync_no_requests_witness :
  importMetroFromProject sampleEnv "/app" = Ok tt /\
  importMetroServerFromProject sampleEnv "/app" = Ok sampleDefaults /\
  loadAsync sampleEnv "/app" sampleOptions = Ok sampleConfig /\
  runMetro sampleEnv sampleConfig = Ok tt /\
  bundleAsync sampleEnv "/app" sampleExpoConfig sampleOptions [] freshGlobals
  = {| emitted := [MetroEnd];
       globals := {| nextBuildID := 1 |};
       outcome := Ok [] |}.
Proof.
  do 4 (split; [reflexivity|]).
  exact (bundleAsync_no_requests sampleEnv "/app" sampleExpoConfig
           sampleOptions freshGlobals sampleDefaults sampleConfig
           eq_refl eq_refl eq_refl eq_refl).
Defined.

(** X7.  A call that has its Metro server first makes, for every request in
    order, the [bundle_build_started] report and the [metroServer.build]
    call: every build is under way before anything is awaited.  Nothing
    after that is a started report or a build call.  There is at most one
    [bundle_build_done] report per request, and exactly one per request
    when the call returns. *)
Theorem builds_are_all_started_first
    env projectRoot expoConfig options
    (bundles : list BundleOptions) (g : Globals) defaults config :
  importMetroFromProject env projectRoot = Ok tt ->
  importMetroServerFromProject env projectRoot = Ok defaults ->
  loadAsync env projectRoot options = Ok config ->
  runMetro env config = Ok tt ->
  let r := bundleAsync env projectRoot expoConfig options bundles g in
  exists rest,
    emitted r
    = startEvents (bundle_ (nextBuildID g)) defaults config bundles ++ rest /\
    filter isStartedReport rest = [] /\
    buildCalls rest = [] /\
    List.length (filter isDoneReport rest) <= List.length bundles /\
    (isOk (outcome r) = true ->
     List.length (filter isDoneReport rest) = List.length bundles).
Proof.
  intros H1 H2 H3 H4. cbv zeta.
  rewrite (bundleAsync_phases env projectRoot expoConfig options bundles g
             defaults config H1 H2 H3 H4). cbv zeta.
  destruct (Promise_all_buildAsync_settles env options defaults config
              (bundle_ (nextBuildID g)) bundles)
    as (evs & Hfst & Hevs & Hle & Hsnd).
  rewrite Hfst.
  assert (Hs : filter isStartedReport evs = []).
  { apply filter_none. eapply Forall_impl; [|exact Hevs].
    intros a Ha. apply (loopEvent_not_started _ _ _ Ha). }
  assert (Hc : buildCalls evs = []).
  { apply buildCalls_none. eapply Forall_impl; [|exact Hevs].
    intros a Ha. apply (loopEvent_kind _ _ _ Ha). }
  destruct (snd (Promise_all_buildAsync env options defaults config
                   (bundle_ (nextBuildID g)) bundles)) as [inter|e];
    cbn [emitted outcome].
  - destruct Hsnd as [_ Hd].
    set (h := hermesLoop env projectRoot expoConfig bundles 0 inter []
                {| nextBuildID := S (nextBuildID g) |}).
    exists (evs ++ emitted h ++ [MetroEnd]).
    split; [rewrite <- !app_assoc; reflexivity|].
    rewrite !filter_app, !buildCalls_app, Hs, Hc.
    unfold h.
    rewrite (hermesLoop_filter _ _ _ _ _ _ _ _ _ hermesPhaseEvent_not_started).
    rewrite (hermesLoop_filter _ _ _ _ _ _ _ _ _ hermesPhaseEvent_not_done).
    rewrite buildCalls_none
      by (eapply Forall_impl; [|apply hermesLoop_events];
          intros a Ha; apply (hermesPhaseEvent_kind _ Ha)).
    simpl. rewrite app_nil_r.
    repeat split; auto; try (rewrite Hd; apply le_n).
  - exists (evs ++ [MetroEnd]).
    split; [rewrite <- !app_assoc; reflexivity|].
    rewrite !filter_app, !buildCalls_app, Hs, Hc. simpl. rewrite app_nil_r.
    repeat split; auto; discriminate.
Qed.

Lemma builds_are_all_started_first_witness :
  importMetroFromProject failingEnv "/app" = Ok tt /\
  importMetroServerFromProject failingEnv "/app" = Ok sampleDefaults /\
  loadAsync failingEnv "/app" sampleOptions = Ok sampleConfig /\
  runMetro failingEnv sampleConfig = Ok tt /\
  let r := bundleAsync failingEnv "/app" sampleExpoConfig sampleOptions
             [androidRequest; iosRequest] freshGlobals in
  exists rest,
    emitted r
    = startEvents (bundle_ 0) sampleDefaults sampleConfig
        [androidRequest; iosRequest] ++ rest /\
    filter isStartedReport rest = [] /\
    buildCalls rest = [] /\
    List.length (filter isDoneReport rest) <= 2 /\
    (isOk (outcome r) = true ->
     List.length (filter isDoneReport rest) = 2).
Proof.
  do 4 (split; [reflexivity|]).
  exact (builds_are_all_started_first failingEnv "/app" sampleExpoConfig
           sampleOptions [androidRequest; iosRequest] freshGlobals
           sampleDefaults sampleConfig eq_refl eq_refl eq_refl eq_refl).
Defined.

Lemma hermesOptimizeArgs_app (l l' : list Event) :
  hermesOptimizeArgs (l ++ l')
  = hermesOptimizeArgs l ++ hermesOptimizeArgs l'.
Proof.
  induction l as [|e l IH]; simpl; [reflexivity|].
  destruct e; simpl; now rewrite IH.
Qed.

Lemma hermesOptimizeArgs_none (l : list Event) :
  Forall (fun e => isHermesBuild e = false) l -> hermesOptimizeArgs l = [].
Proof.
  induction 1 as [|e l He _ IH]; simpl; [reflexivity|].
  destruct e; auto; discriminate.
Qed.

Lemma sequentialEvents_optimizeArgs env projectRoot expoConfig
    (bundles : list BundleOptions) :
  forall outs,
    List.length outs = List.length bundles ->
    hermesOptimizeArgs
      (sequentialEvents env projectRoot expoConfig bundles outs)
    = List.map minify
        (filter (fun bundle =>
                   isEnableHermesManaged env expoConfig (platform bundle))
           bundles).
Proof.
  induction bundles as [|bundle bundles IH]; intros [|out outs] Hlen;
    try discriminate; [reflexivity|].
  cbn [sequentialEvents filter]. rewrite hermesOptimizeArgs_app.
  rewrite (IH outs) by (simpl in Hlen; lia).
  unfold sequentialEventsFor.
  destruct (isEnableHermesManaged env expoConfig (platform bundle));
    reflexivity.
Qed.

(** The trace of a run that returns. *)
Lemma bundleAsync_returns_trace env projectRoot expoConfig options
    (bundles : list BundleOptions) (g : Globals) (outs : list BundleOutput) :
  outcome (bundleAsync env projectRoot expoConfig options bundles g) = Ok outs ->
  exists builds,
    emitted (bundleAsync env projectRoot expoConfig options bundles g)
    = builds ++ sequentialEvents env projectRoot expoConfig bundles outs
        ++ [MetroEnd] /\
    Forall (fun e => isBuildEvent e = true) builds /\
    List.length outs = List.length bundles.
Proof.
  intros H.
  destruct (bundleAsync_cases env projectRoot expoConfig options bundles g)
    as [[_ (e & He)]|(defaults & config & H1 & H2 & H3 & H4)];
    [rewrite He in H; discriminate|].
  rewrite (bundleAsync_phases env projectRoot expoConfig options bundles g
             defaults config H1 H2 H3 H4) in H |- *. cbv zeta in H |- *.
  destruct (Promise_all_buildAsync_settles env options defaults config
              (bundle_ (nextBuildID g)) bundles)
    as (evs & Hfst & Hevs & _ & Hsnd).
  rewrite Hfst.
  destruct (snd (Promise_all_buildAsync env options defaults config
                   (bundle_ (nextBuildID g)) bundles)) as [inter|e];
    cbn [emitted outcome] in H |- *; [|discriminate].
  destruct (hermesLoop_trace env projectRoot expoConfig bundles [] inter []
              _ outs H) as (outs' & Houts & Hlen & Hev).
  simpl in Houts, Hev. subst outs'. rewrite Hev.
  exists (startEvents (bundle_ (nextBuildID g)) defaults config bundles ++ evs).
  split; [rewrite <- !app_assoc; reflexivity|]. split; [|exact Hlen].
  apply Forall_app. split.
  - eapply Forall_impl; [|apply startEvents_kind]. intros a [Ha _]. exact Ha.
  - eapply Forall_impl; [|exact Hevs].
    intros a Ha. apply (loopEvent_kind _ _ _ Ha).
Qed.

(** X8.  The sequential phase of a call that returns, in full: after the
    last build event come, request by request in the order of the requests,
    the engine check of the request (for every request, whether or not
    Hermes is enabled for it) and, when Hermes is enabled for its platform,
    the log line and the compilation of the code and map of the request's
    own output, settled before the next request is looked at; then
    [metroServer.end].  Nothing else is done. *)
Theorem sequential_phase_of_a_returning_call
    env projectRoot expoConfig options
    (bundles : list BundleOptions) (g : Globals) (outs : list BundleOutput) :
  outcome (bundleAsync env projectRoot expoConfig options bundles g) = Ok outs ->
  exists builds,
    emitted (bundleAsync env projectRoot expoConfig options bundles g)
    = builds ++ sequentialEvents env projectRoot expoConfig bundles outs
        ++ [MetroEnd] /\
    filter isHermesPhaseEvent builds = [] /\
    filter isMetroEnd builds = [] /\
    List.length outs = List.length bundles.
Proof.
  intros H.
  destruct (bundleAsync_returns_trace env projectRoot expoConfig options
              bundles g outs H) as (builds & Hev & Hb & Hlen).
  exists builds. split; [exact Hev|]. repeat split; [| |exact Hlen].
  - apply filter_none. eapply Forall_impl; [|exact Hb].
    intros a Ha. apply (buildEvent_not_hermesPhase _ Ha).
  - apply filter_none. eapply Forall_impl; [|exact Hb].
    intros a Ha. apply (buildEvent_not_end _ Ha).
Qed.

Lemma sequential_phase_of_a_returning_call_witness :
  let r := bundleAsync sampleEnv "/app" sampleExpoConfig sampleOptions
             [androidRequest; iosRequest] freshGlobals in
  exists outs builds,
    outcome r = Ok outs /\
    emitted r
    = builds
        ++ [CheckEngine "/app" "/app/app.json" android true;
            LoggerInfo "expo"
              "💿 Android Building Hermes bytecode for the bundle";
            HermesBuildBegin "/app" "code of index.js" "map of index.js" None;
            HermesBuildSettled true;
            CheckEngine "/app" "/app/app.json" ios false;
            MetroEnd] /\
    filter isHermesPhaseEvent builds = [].
Proof.
  cbv zeta.
  destruct (bundleAsync sampleEnv "/app" sampleExpoConfig sampleOptions
              [androidRequest; iosRequest] freshGlobals) as [evs gl [outs|e]]
    eqn:Hrun; [|apply (f_equal outcome) in Hrun; vm_compute in Hrun;
                discriminate Hrun].
  pose proof (f_equal outcome Hrun) as Hout. cbn [outcome] in Hout.
  destruct (sequential_phase_of_a_returning_call sampleEnv "/app"
              sampleExpoConfig sampleOptions [androidRequest; iosRequest]
              freshGlobals outs Hout) as (builds & Hev & Hnone & _ & _).
  rewrite Hrun in Hev. cbn [emitted] in Hev.
  exists outs, builds. split; [reflexivity|]. split; [|exact Hnone].
  cbn [emitted]. rewrite Hev. f_equal.
  vm_compute in Hout. inversion Hout. reflexivity.
Defined.

(** X9.  In a call that returns, [buildHermesBundleAsync] is called once
    for each request Hermes is enabled for, in the order of the requests,
    and its last argument is the [minify] of the request as the caller gave
    it ([undefined] when the caller left it out), whatever the request's
    [dev] flag. *)
Theorem hermes_compiler_gets_the_requests_own_minify
    env projectRoot expoConfig options
    (bundles : list BundleOptions) (g : Globals) (outs : list BundleOutput) :
  outcome (bundleAsync env projectRoot expoConfig options bundles g) = Ok outs ->
  hermesOptimizeArgs
    (emitted (bundleAsync env projectRoot expoConfig options bundles g))
  = List.map minify
      (filter (fun bundle =>
                 isEnableHermesManaged env expoConfig (platform bundle))
         bundles).
Proof.
  intros H.
  destruct (bundleAsync_returns_trace env projectRoot expoConfig options
              bundles g outs H) as (builds & Hev & Hb & Hlen).
  rewrite Hev, !hermesOptimizeArgs_app.
  rewrite (hermesOptimizeArgs_none builds)
    by (eapply Forall_impl; [|exact Hb];
        intros a Ha; apply (buildEvent_not_hermes _ Ha)).
  rewrite (sequentialEvents_optimizeArgs _ _ _ _ _ Hlen).
  simpl. apply app_nil_r.
Qed.

Lemma hermes_compiler_gets_the_requests_own_minify_witness :
  isOk (outcome (bundleAsync sampleEnv "/app" sampleExpoConfig sampleOptions
                   [androidRequest; iosRequest] freshGlobals)) = true /\
  hermesOptimizeArgs
    (emitted (bundleAsync sampleEnv "/app" sampleExpoConfig sampleOptions
                [androidRequest; iosRequest] freshGlobals))
  = [None].
Proof.
  split; [vm_compute; reflexivity|].
  destruct (outcome (bundleAsync sampleEnv "/app" sampleExpoConfig
                       sampleOptions [androidRequest; iosRequest]
                       freshGlobals)) as [outs|e] eqn:Hout;
    [|vm_compute in Hout; discriminate Hout].
  rewrite (hermes_compiler_gets_the_requests_own_minify sampleEnv "/app"
             sampleExpoConfig sampleOptions [androidRequest; iosRequest]
             freshGlobals outs Hout).
  reflexivity.
Defined.

(** X10.  In the array a call returns, the output of a request Hermes is
    enabled for carries the code and map Metro built for that request, and
    its bytecode and bytecode source map are what the Hermes compiler made
    of that very code and map; the Hermes step changes neither code, map
    nor assets. *)
Theorem bytecode_is_compiled_from_the_requests_own_bundle
    env projectRoot expoConfig options
    (bundles : list BundleOptions) (g : Globals) (outs : list BundleOutput) :
  outcome (bundleAsync env projectRoot expoConfig options bundles g) = Ok outs ->
  exists defaults config,
    importMetroServerFromProject env projectRoot = Ok defaults /\
    loadAsync env projectRoot options = Ok config /\
    Forall2
      (fun bundle out =>
         isEnableHermesManaged env expoConfig (platform bundle) = true ->
         exists builtCode builtMap h,
           settles (build env (bundleOptions defaults config bundle))
           = Ok (builtCode, builtMap) /\
           buildHermesBundleAsync env projectRoot builtCode builtMap
             (minify bundle) = Ok h /\
           code out = builtCode /\
           map out = builtMap /\
           hermesBytecodeBundle out = Some (hbc h) /\
           hermesSourcemap out = Some (sourcemap h))
      bundles outs.
Proof.
  intros H.
  destruct (bundleAsync_outputs env projectRoot expoConfig options bundles g
              outs H) as (defaults & config & H2 & H3 & Hd).
  exists defaults, config. split; [exact H2|]. split; [exact H3|].
  eapply Forall2_impl; [|exact Hd].
  intros bundle out (Hb & _ & Hh) Hm. rewrite Hm in Hh.
  destruct Hh as (h & Hc & Hbc & Hsm).
  exists (code out), (map out), h. auto 10.
Qed.

Lemma bytecode_is_compiled_from_the_requests_own_bundle_witness :
  exists outs,
    outcome (bundleAsync sampleEnv "/app" sampleExpoConfig sampleOptions
               [androidRequest] freshGlobals) = Ok outs /\
    Forall2
      (fun bundle out =>
         isEnableHermesManaged sampleEnv sampleExpoConfig (platform bundle)
         = true ->
         exists builtCode builtMap h,
           settles (build sampleEnv
                      (bundleOptions sampleDefaults sampleConfig bundle))
           = Ok (builtCode, builtMap) /\
           buildHermesBundleAsync sampleEnv "/app" builtCode builtMap
             (minify bundle) = Ok h /\
           code out = builtCode /\
           map out = builtMap /\
           hermesBytecodeBundle out = Some (hbc h) /\
           hermesSourcemap out = Some (sourcemap h))
      [androidRequest] outs.
Proof.
  destruct (outcome (bundleAsync sampleEnv "/app" sampleExpoConfig
                       sampleOptions [androidRequest] freshGlobals))
    as [outs|e] eqn:Hout; [|vm_compute in Hout; discriminate Hout].
  exists outs. split; [reflexivity|].
  destruct (bytecode_is_compiled_from_the_requests_own_bundle sampleEnv
              "/app" sampleExpoConfig sampleOptions [androidRequest]
              freshGlobals outs Hout) as (d & c & Hd & Hc & Hall).
  inversion Hd. inversion Hc. subst d c. exact Hall.
Defined.

Section ScheduleIndependence.

Variable env : Environment.
Variable order : nat -> nat.

Lemma hermesLoop_withSchedule projectRoot expoConfig
    (rest : list BundleOptions) :
  forall i inter acc g,
    hermesLoop (withSchedule order env) projectRoot expoConfig rest i inter
      acc g
    = hermesLoop env projectRoot expoConfig rest i inter acc g.
Proof.
  induction rest as [|bundle rest IH]; intros i inter acc g; [reflexivity|].
  rewrite !hermesLoop_cons.
  destruct (nth_error inter i) as [intermediate|]; [|reflexivity].
  cbv zeta.
  change (maybeAddHermesBundleAsync (withSchedule order env) projectRoot
            expoConfig bundle intermediate g)
    with (maybeAddHermesBundleAsync env projectRoot expoConfig bundle
            intermediate g).
  destruct (outcome (maybeAddHermesBundleAsync env projectRoot expoConfig
                       bundle intermediate g)); [|reflexivity].
  now rewrite IH.
Qed.

Lemma builtFrom_unique (o : Metro.BundleOptions) (out out' : BundleOutput) :
  builtFrom env o out -> builtFrom env o out' -> out = out'.
Proof.
  destruct out, out'. unfold builtFrom. simpl.
  intros (Hb & Ha & H1 & H2) (Hb' & Ha' & H1' & H2').
  rewrite Hb in Hb'. rewrite Ha in Ha'.
  inversion Hb'. inversion Ha'. subst. reflexivity.
Qed.

Lemma builtFrom_all_unique (f : BundleOptions -> Metro.BundleOptions)
    (bundles : list BundleOptions) :
  forall outs outs',
    Forall2 (fun bundle => builtFrom env (f bundle)) bundles outs ->
    Forall2 (fun bundle => builtFrom env (f bundle)) bundles outs' ->
    outs = outs'.
Proof.
  induction bundles as [|b bs IH]; intros outs outs' H H';
    inversion H; inversion H'; subst; [reflexivity|].
  f_equal; [eapply builtFrom_unique; eassumption|auto].
Qed.

End ScheduleIndependence.

(** X11.  The array [bundleAsync] returns does not depend on the order in
    which the concurrent builds complete: when a call returns under one
    order of resumption, it returns the same array under every other. *)
Theorem returned_outputs_do_not_depend_on_completion_order
    env projectRoot expoConfig options
    (bundles : list BundleOptions) (g : Globals) (outs : list BundleOutput)
    (order : nat -> nat) :
  outcome (bundleAsync env projectRoot expoConfig options bundles g) = Ok outs ->
  outcome (bundleAsync (withSchedule order env) projectRoot expoConfig options
             bundles g) = Ok outs.
Proof.
  intros H.
  destruct (bundleAsync_cases env projectRoot expoConfig options bundles g)
    as [[_ (e & He)]|(defaults & config & H1 & H2 & H3 & H4)];
    [rewrite He in H; discriminate|].
  rewrite (bundleAsync_phases env projectRoot expoConfig options bundles g
             defaults config H1 H2 H3 H4) in H. cbv zeta in H.
  rewrite (bundleAsync_phases (withSchedule order env) projectRoot expoConfig
             options bundles g defaults config H1 H2 H3 H4). cbv zeta.
  destruct (Promise_all_buildAsync_settles env options defaults config
              (bundle_ (nextBuildID g)) bundles)
    as (evs & _ & _ & _ & Hsnd).
  destruct (Promise_all_buildAsync_settles (withSchedule order env) options
              defaults config (bundle_ (nextBuildID g)) bundles)
    as (evs' & _ & _ & _ & Hsnd').
  destruct (snd (Promise_all_buildAsync env options defaults config
                   (bundle_ (nextBuildID g)) bundles)) as [inter|e];
    cbn [outcome] in H; [|discriminate].
  destruct Hsnd as [Hb _].
  destruct (snd (Promise_all_buildAsync (withSchedule order env) options
                   defaults config (bundle_ (nextBuildID g)) bundles))
    as [inter'|e']; cbn [outcome].
  - destruct Hsnd' as [Hb' _].
    rewrite (builtFrom_all_unique env _ bundles inter' inter Hb' Hb).
    rewrite hermesLoop_withSchedule. exact H.
  - exfalso. destruct Hsnd' as (bundle & Hin & Hr).
    destruct (Forall2_In_left _ _ _ _ Hb Hin) as (out & _ & Hs & Ha & _).
    destruct Hr as [Hr|Hr]; cbn in Hr; congruence.
Qed.

Lemma returned_outputs_do_not_depend_on_completion_order_witness :
  exists outs,
    outcome (bundleAsync sampleEnv "/app" sampleExpoConfig sampleOptions
               [androidRequest; iosRequest] freshGlobals) = Ok outs /\
    outcome (bundleAsync (withSchedule (fun turn => 7 - turn) sampleEnv) "/app"
               sampleExpoConfig sampleOptions [androidRequest; iosRequest]
               freshGlobals) = Ok outs /\
    emitted (bundleAsync (withSchedule (fun turn => 7 - turn) sampleEnv) "/app"
               sampleExpoConfig sampleOptions [androidRequest; iosRequest]
               freshGlobals)
    <> emitted (bundleAsync sampleEnv "/app" sampleExpoConfig sampleOptions
                  [androidRequest; iosRequest] freshGlobals).
Proof.
  destruct (outcome (bundleAsync sampleEnv "/app" sampleExpoConfig
                       sampleOptions [androidRequest; iosRequest]
                       freshGlobals)) as [outs|e] eqn:Hout;
    [|vm_compute in Hout; discriminate Hout].
  exists outs. split; [reflexivity|]. split.
  - exact (returned_outputs_do_not_depend_on_completion_order sampleEnv "/app"
             sampleExpoConfig sampleOptions [androidRequest; iosRequest]
             freshGlobals outs (fun turn => 7 - turn) Hout).
  - vm_compute. discriminate.
Defined.

(** ** Properties of runMetroDevServerAsync and attachInspectorProxy *)

Lemma Connect_run_app (handlers handlers' : list Connect.Handler)
    (req : Connect.Request) :
  Connect.run (handlers ++ handlers') req =
  match Connect.run handlers req with
  | Some res => Some res
  | None => Connect.run handlers' req
  end.
Proof.
  induction handlers as [|h handlers IH]; simpl; [reflexivity|].
  destruct (h req); [reflexivity|exact IH].
Qed.

(** The calls of the merged enhancer pile up on the one middleware object,
    in the order they are made. *)
Lemma enhanceMiddleware_calls_stack
    (customEnhanceMiddleware : option EnhanceMiddleware)
    (calls : list (Connect.Handler * MetroServer)) :
  forall base : Connect.Server,
    Connect.stack
      (fold_left
         (fun middleware call =>
            enhanceMiddleware customEnhanceMiddleware middleware
              (fst call) (snd call))
         calls base)
    = Connect.stack base ++ List.map (enhanced customEnhanceMiddleware) calls.
Proof.
  induction calls as [|call calls IH]; intros base; simpl.
  - now rewrite app_nil_r.
  - rewrite IH. unfold enhanceMiddleware, enhanced, Connect.use. simpl.
    rewrite <- app_assoc. reflexivity.
Qed.

(** X12.  [runMetroDevServerAsync] attaches the sockets and rebinds
    [reporter.reportEvent] exactly when the server started: when the
    configuration cannot be loaded or [createDevServerAsync] rejects, it
    rethrows that very error, [attachToServer] is not called and the
    reporter keeps its own [reportEvent]; when the server started, the
    reporter reports through the events socket attached to the returned
    server, and the returned message socket is the one attached with
    it. *)
Theorem runMetroDevServerAsync_attaches_only_a_started_server
    (env : DevServerEnvironment) (projectRoot : string)
    (options : MetroDevServerOptions) :
  let r := runMetroDevServerAsync env projectRoot options in
  match devServerOutcome r with
  | Throw e =>
      reporter_reportEvent r = LogReporter_reportEvent /\
      (forall server, ~ In (AttachToServerCall server) (devServerCalls r)) /\
      (loadDevConfigAsync env projectRoot options = Throw e \/
       exists loaded,
         loadDevConfigAsync env projectRoot options = Ok loaded /\
         listening (createDevServerAsync env projectRoot (metroConfig loaded))
         = Throw e)
  | Ok started =>
      exists loaded,
        loadDevConfigAsync env projectRoot options = Ok loaded /\
        let created :=
          createDevServerMiddleware env (serverPort (metroConfig loaded))
            (watchFolders (metroConfig loaded)) in
        let sockets := attachToServer created (DevServer.server started) in
        listening (createDevServerAsync env projectRoot (metroConfig loaded))
        = Ok (DevServer.server started) /\
        last (devServerCalls r) (LoadConfigCall projectRoot)
        = AttachToServerCall (DevServer.server started) /\
        DevServer.messageSocket started = fst sockets /\
        reporter_reportEvent r = EventsSocket_reportEvent (snd sockets)
  end.
Proof.
  cbv zeta. unfold runMetroDevServerAsync.
  destruct (loadDevConfigAsync env projectRoot options) as [loaded|e] eqn:Hl;
    cbn [devServerOutcome reporter_reportEvent devServerCalls].
  - destruct (listening (createDevServerAsync env projectRoot
                           (metroConfig loaded))) as [server|e] eqn:Hs;
      cbn [devServerOutcome reporter_reportEvent devServerCalls].
    + exists loaded. repeat split. exact Hs.
    + split; [reflexivity|]. split.
      * intros server [H|[H|[H|[]]]]; discriminate H.
      * right. exists loaded. auto.
  - split; [reflexivity|]. split.
    + intros server [H|[]]; discriminate H.
    + left. reflexivity.
Qed.

Lemma runMetroDevServerAsync_attaches_only_a_started_server_witness :
  devServerOutcome (runMetroDevServerAsync portTakenDevEnv "/app" sampleOptions)
  = Throw (ExternalError "EADDRINUSE") /\
  reporter_reportEvent
    (runMetroDevServerAsync portTakenDevEnv "/app" sampleOptions)
  = LogReporter_reportEvent /\
  forall server,
    ~ In (AttachToServerCall server)
        (devServerCalls
           (runMetroDevServerAsync portTakenDevEnv "/app" sampleOptions)).
Proof.
  pose proof (runMetroDevServerAsync_attaches_only_a_started_server
                portTakenDevEnv "/app" sampleOptions) as H.
  cbv zeta in H.
  change (devServerOutcome
            (runMetroDevServerAsync portTakenDevEnv "/app" sampleOptions))
    with (@Throw DevServer.Started (ExternalError "EADDRINUSE")) in H.
  destruct H as (Hr & Hc & _).
  split; [reflexivity|]. split; [exact Hr|exact Hc].
Defined.

(** X13.  The middleware [runMetroDevServerAsync] returns is the base stack
    of [createDevServerMiddleware] followed by what each call of the
    enhancer was given, after the custom enhancer when the configuration
    has one, in the order of the calls: a request the base stack answers
    never reaches Metro's middleware, and one it passes on is answered by
    the enhanced Metro middleware. *)
Theorem started_middleware_is_base_stack_then_metro
    (env : DevServerEnvironment) (projectRoot : string)
    (options : MetroDevServerOptions) (started : DevServer.Started) :
  devServerOutcome (runMetroDevServerAsync env projectRoot options)
  = Ok started ->
  exists loaded,
    loadDevConfigAsync env projectRoot options = Ok loaded /\
    let base :=
      middleware
        (createDevServerMiddleware env (serverPort (metroConfig loaded))
           (watchFolders (metroConfig loaded))) in
    let metro :=
      List.map (enhanced (server_enhanceMiddleware loaded))
        (enhanceMiddlewareCalls
           (createDevServerAsync env projectRoot (metroConfig loaded))) in
    Connect.stack (DevServer.middleware started)
    = Connect.stack base ++ metro /\
    forall req,
      Connect.handle (DevServer.middleware started) req =
      match Connect.handle base req with
      | Some res => Some res
      | None => Connect.run metro req
      end.
Proof.
  unfold runMetroDevServerAsync.
  destruct (loadDevConfigAsync env projectRoot options) as [loaded|e];
    cbn [devServerOutcome]; [|discriminate].
  destruct (listening (createDevServerAsync env projectRoot
                         (metroConfig loaded))) as [server|e];
    cbn [devServerOutcome]; [|discriminate].
  intros H. inversion H; subst; clear H. cbn [DevServer.middleware].
  exists loaded. split; [reflexivity|]. cbv zeta.
  split; [apply enhanceMiddleware_calls_stack|].
  intros req. unfold Connect.handle.
  rewrite enhanceMiddleware_calls_stack. apply Connect_run_app.
Qed.

Lemma started_middleware_is_base_stack_then_metro_witness :
  exists started,
    devServerOutcome (runMetroDevServerAsync sampleDevEnv "/app" sampleOptions)
    = Ok started /\
    started = sampleStarted /\
    Connect.handle (DevServer.middleware started)
      {| Connect.method := "GET"; Connect.url := "/favicon.ico" |}
    = Some {| Connect.statusCode := 200; Connect.body := "icon" |} /\
    Connect.handle (DevServer.middleware started)
      {| Connect.method := "GET"; Connect.url := "/status" |}
    = Some {| Connect.statusCode := 200;
              Connect.body := "packager-status:running" |} /\
    Connect.handle (DevServer.middleware started)
      {| Connect.method := "GET"; Connect.url := "/index.bundle" |}
    = Some {| Connect.statusCode := 200;
              Connect.body := "bundle for /index.bundle" |}.
Proof.
  destruct (devServerOutcome
              (runMetroDevServerAsync sampleDevEnv "/app" sampleOptions))
    as [started|e] eqn:Hrun; [|vm_compute in Hrun; discriminate Hrun].
  exists started. split; [reflexivity|].
  destruct (started_middleware_is_base_stack_then_metro sampleDevEnv "/app"
              sampleOptions started Hrun) as (loaded & Hl & Hstack & Hhandle).
  inversion Hl; subst loaded; clear Hl.
  rewrite !Hhandle. split; [|repeat split; reflexivity].
  inversion Hrun. reflexivity.
Defined.

(** X14.  [attachInspectorProxy] adds [processRequest] behind the handlers
    the middleware already has: the stack grows by that one handler, a
    request an earlier handler answers never reaches the proxy, and one
    that all of them pass on is handled by [processRequest].  It makes at
    most one binding call, on the server it was given. *)
Theorem attachInspectorProxy_appends_processRequest
    (importInspectorProxyServerFromProject :
       string -> Result (string -> InspectorProxy))
    (projectRoot : string) (server : HttpServer) (before : Connect.Server)
    (attached : Attached) :
  attachInspectorProxy importInspectorProxyServerFromProject projectRoot
    server before = Ok attached ->
  Connect.stack (middlewareAfter attached)
  = Connect.stack before ++ [processRequest (inspectorProxy attached)] /\
  (forall req,
      Connect.handle (middlewareAfter attached) req =
      match Connect.handle before req with
      | Some res => Some res
      | None => processRequest (inspectorProxy attached) req
      end) /\
  List.length (bindings attached) <= 1 /\
  Forall (fun binding =>
            binding = addWebSocketListener server \/
            binding = createWebSocketListeners server)
    (bindings attached).
Proof.
  unfold attachInspectorProxy.
  destruct (importInspectorProxyServerFromProject projectRoot)
    as [InspectorProxy_new|e]; [|discriminate].
  intros H. inversion H; subst; clear H.
  cbn [middlewareAfter inspectorProxy bindings].
  split; [reflexivity|]. split.
  - intros req. unfold Connect.handle, Connect.use. simpl.
    apply Connect_run_last.
  - destruct (hasProperty "addWebSocketListener"
                (InspectorProxy_new projectRoot));
      [|destruct (hasProperty "createWebSocketListeners"
                    (InspectorProxy_new projectRoot))];
      simpl; split; auto; repeat constructor; auto.
Qed.

Lemma attachInspectorProxy_appends_processRequest_witness :
  devServerOutcome (runMetroDevServerAsync sampleDevEnv "/app" sampleOptions)
  = Ok sampleStarted /\
  exists attached,
    attachInspectorProxy (fun _ => Ok bothBindingsProxy) "/app"
      (DevServer.server sampleStarted) (DevServer.middleware sampleStarted)
    = Ok attached /\
    bindings attached = [addWebSocketListener {| listeningPort := 81 |}] /\
    Connect.stack (middlewareAfter attached)
    = Connect.stack (DevServer.middleware sampleStarted)
        ++ [processRequest (inspectorProxy attached)] /\
    forall req,
      Connect.handle (middlewareAfter attached) req =
      match Connect.handle (DevServer.middleware sampleStarted) req with
      | Some res => Some res
      | None => processRequest (inspectorProxy attached) req
      end.
Proof.
  split; [reflexivity|].
  destruct (attachInspectorProxy (fun _ => Ok bothBindingsProxy) "/app"
              (DevServer.server sampleStarted)
              (DevServer.middleware sampleStarted))
    as [attached|e] eqn:Hattach; [|discriminate Hattach].
  exists attached. split; [reflexivity|].
  destruct (attachInspectorProxy_appends_processRequest
              (fun _ => Ok bothBindingsProxy) "/app"
              (DevServer.server sampleStarted)
              (DevServer.middleware sampleStarted)
              attached Hattach) as (Hstack & Hhandle & _ & _).
  split; [|split; [exact Hstack|exact Hhandle]].
  inversion Hattach. reflexivity.
Defined.

(** ** What the reports of the build phase stand for *)

Section Accounting.

Variable env : Environment.
Variable options : MetroDevServerOptions.
Variable buildID : BuildID.




End Accounting.






